(** * StockCLI: a shallow embedding of [stockCLI.py]

    The development follows the layout of the program: the Python
    run-time values the program manipulates ([Py]), the field catalog,
    the formatter, the data fetcher, the presenter and the CLI driver
    ([StockCLI]); the properties come after the definitions.

    Conventions.
    - A Python [float] (and a numpy [float64], which subclasses it) is a
      binary64 number, taken from the Standard Library's [SpecFloat] with
      precision 53 and maximal exponent 1024; arithmetic is the IEEE one
      of that library.
    - A Python [int] is a [Z]; a numpy [int64] is a [Z] whose arithmetic
      wraps around 64 bits.
    - A call that may raise returns a [result]; a function that prints
      returns the texts handed to [print], oldest first, together with the
      exception that interrupted it, if any.
    - Strings are byte strings; the source only manipulates ASCII text
      apart from the two change markers, which are kept as their UTF-8
      bytes. *)

From Stdlib Require Import ZArith String Ascii List DecimalString Lia.
From Stdlib Require Import Floats.SpecFloat.
From stdpp Require Import base option strings gmap list vector.

Open Scope list_scope.
Open Scope string_scope.
Open Scope Z_scope.

(** ** Python run-time values and builtins *)

Module Py.

(** Exceptions: the class and the text [str(e)] gives. [OtherError]
    stands for any exception class of an external library. *)
Inductive exn_kind :=
| KeyError
| IndexError
| TypeError
| ValueError
| OverflowError
| OtherError.

Record exn := Exn { kind : exn_kind; message : string }.

Definition key_error (key : string) : exn := Exn KeyError ("'" ++ key ++ "'").
Definition overflow_error : exn :=
  Exn OverflowError "int too large to convert to float".
Definition no_format (ty : string) : exn :=
  Exn TypeError ("unsupported format string passed to " ++ ty ++ ".__format__").
Definition no_operand (op ty1 ty2 : string) : exn :=
  Exn TypeError ("unsupported operand type(s) for " ++ op ++ ": '" ++ ty1
                   ++ "' and '" ++ ty2 ++ "'").
Definition no_order (ty1 ty2 : string) : exn :=
  Exn TypeError ("'>=' not supported between instances of '" ++ ty1
                   ++ "' and '" ++ ty2 ++ "'").

Inductive result (A : Type) :=
| Ok (a : A)
| Raise (e : exn).
Arguments Ok {A} a.
Arguments Raise {A} e.

#[export] Instance result_ret : MRet result := fun A a => Ok a.
#[export] Instance result_bind : MBind result := fun A B f r =>
  match r with
  | Ok a => f a
  | Raise e => Raise e
  end.

Definition is_ok {A} (r : result A) : bool :=
  match r with Ok _ => true | Raise _ => false end.

(** *** binary64 *)

Definition float := spec_float.

Definition fsub : float -> float -> float := SFsub 53 1024.
Definition fmul : float -> float -> float := SFmul 53 1024.
Definition fdiv : float -> float -> float := SFdiv 53 1024.
Definition fle (x y : float) : bool := SFleb x y.
Definition feq (x y : float) : bool := SFeqb x y.

(** The binary64 number nearest to an integer (ties to even); it is
    infinite when the integer is beyond the binary64 range. *)
Definition float_of_Z (z : Z) : float := binary_normalize 53 1024 z 0 false.

Definition is_finite (x : float) : bool :=
  match x with
  | S754_zero _ | S754_finite _ _ _ => true
  | _ => false
  end.

(** [float(n)] for a Python int: OverflowError beyond the range. *)
Definition py_float (z : Z) : result float :=
  if is_finite (float_of_Z z) then Ok (float_of_Z z) else Raise overflow_error.

(** numpy int64 arithmetic wraps. *)
Definition wrap64 (z : Z) : Z := (z + 2 ^ 63) mod 2 ^ 64 - 2 ^ 63.

(** *** Decimal text *)

Definition dec_N (n : N) : string := NilZero.string_of_uint (N.to_uint n).

Definition dec_Z (z : Z) : string :=
  match z with
  | Zneg p => "-" ++ dec_N (Npos p)
  | _ => dec_N (Z.to_N z)
  end.

(** Thousands separators in a run of digits. *)
Fixpoint group3 (s : string) : string :=
  match s with
  | EmptyString => EmptyString
  | String c s' =>
      String c (if (0 <? String.length s')%nat && (String.length s' mod 3 =? 0)%nat
                then String "," (group3 s') else group3 s')
  end.

Definition pad2 (n : Z) : string :=
  if n <? 10 then "0" ++ dec_Z n else dec_Z n.

Definition sign_str (plus neg : bool) : string :=
  if neg then "-" else if plus then "+" else "".

Fixpoint zeros (n : nat) : string :=
  match n with
  | O => ""
  | S n' => String "0" (zeros n')
  end.

(** *** The presentation type [.2f] (with the options [+] and [,])

    The exact value [m * 2^e] is rounded to hundredths, ties to even. *)

Definition round_half_even (n d : Z) : Z :=
  let q := n / d in
  match 2 * (n mod d) ?= d with
  | Lt => q
  | Gt => q + 1
  | Eq => if Z.even q then q else q + 1
  end.

Definition scaled_cents (m : positive) (e : Z) : Z :=
  if 0 <=? e then Zpos m * 2 ^ e * 100
  else round_half_even (Zpos m * 100) (2 ^ (- e)).

Definition fixed2_abs (grouped : bool) (m : positive) (e : Z) : string :=
  let c := scaled_cents m e in
  (if grouped then group3 (dec_Z (c / 100)) else dec_Z (c / 100))
    ++ "." ++ pad2 (c mod 100).

Definition format_fixed2 (plus grouped : bool) (f : float) : string :=
  match f with
  | S754_nan => sign_str plus false ++ "nan"
  | S754_infinity s => sign_str plus s ++ "inf"
  | S754_zero s => sign_str plus s ++ "0.00"
  | S754_finite s m e => sign_str plus s ++ fixed2_abs grouped m e
  end.

(** *** [repr] of a float: the shortest decimal that reads back as the
    same binary64 number, the nearest one among those. Rationals are
    pairs of a numerator and a positive denominator. *)

Definition qle (a b : Z * Z) : bool := fst a * snd b <=? fst b * snd a.
Definition qlt (a b : Z * Z) : bool := fst a * snd b <? fst b * snd a.
Definition qcmp (a b : Z * Z) : comparison := fst a * snd b ?= fst b * snd a.

Definition dec_q (D k : Z) : Z * Z :=
  if 0 <=? k then (D * 10 ^ k, 1) else (D, 10 ^ (- k)).

Fixpoint frac_scale (fuel : nat) (n d j : Z) : Z :=
  match fuel with
  | O => j
  | S fuel' => if d <=? n * 10 ^ j then j else frac_scale fuel' n d (j + 1)
  end.

(** [floor (log10 (n / d))]; 400 steps cover every binary64 number. *)
Definition ilog10 (n d : Z) : Z :=
  if d <=? n then Z.of_nat (String.length (dec_Z (n / d))) - 1
  else - frac_scale 400 n d 1.

Fixpoint strip_zeros (fuel : nat) (D k : Z) : Z * Z :=
  match fuel with
  | O => (D, k)
  | S fuel' =>
      if (D mod 10 =? 0) && (0 <? D) then strip_zeros fuel' (D / 10) (k + 1)
      else (D, k)
  end.

(** The [n]-digit decimals around [v] that lie in its rounding interval. *)
Definition candidate (v lo hi : Z * Z) (incl : bool) (p n : Z) : option (Z * Z) :=
  let k := p - n + 1 in
  let D0 := (fst v * snd (dec_q 1 k)) / (snd v * fst (dec_q 1 k)) in
  let c0 := dec_q D0 k in
  let c1 := dec_q (D0 + 1) k in
  let inside c := if incl then qle lo c && qle c hi else qlt lo c && qlt c hi in
  match inside c0, inside c1 with
  | true, true =>
      match qcmp (2 * fst v, snd v) (dec_q (2 * D0 + 1) k) with
      | Lt => Some (D0, k)
      | Gt => Some (D0 + 1, k)
      | Eq => if Z.even D0 then Some (D0, k) else Some (D0 + 1, k)
      end
  | true, false => Some (D0, k)
  | false, true => Some (D0 + 1, k)
  | false, false => None
  end.

Fixpoint search (fuel : nat) (v lo hi : Z * Z) (incl : bool) (p n : Z) : Z * Z :=
  match fuel with
  | O => (0, 0)
  | S fuel' =>
      match candidate v lo hi incl p n with
      | Some r => r
      | None => search fuel' v lo hi incl p (n + 1)
      end
  end.

(** Digits [D] and exponent [k] with [repr] showing [D * 10^k]. *)
Definition shortest (m : positive) (e : Z) : Z * Z :=
  let up := 2 ^ Z.max e 0 in
  let den := 4 * 2 ^ Z.max (- e) 0 in
  let vn := 4 * Zpos m * up in
  let boundary := (Zpos m =? 2 ^ 52) && (-1074 <? e) in
  let lo := (vn - (if boundary then 1 else 2) * up, den) in
  let hi := (vn + 2 * up, den) in
  let r := search 17 (vn, den) lo hi (Z.even (Zpos m)) (ilog10 vn den) 1 in
  strip_zeros 20 (fst r) (snd r).

Definition repr_abs (grouped : bool) (m : positive) (e : Z) : string :=
  let '(D, k) := shortest m e in
  let ds := dec_Z D in
  let len := Z.of_nat (String.length ds) in
  let decpt := len + k in
  let g s := if grouped then group3 s else s in
  if (decpt <=? -4) || (16 <? decpt) then
    let x := decpt - 1 in
    let mant := match ds with
                | String c EmptyString => String c EmptyString
                | String c rest => String c ("." ++ rest)
                | EmptyString => ""
                end in
    mant ++ "e" ++ (if x <? 0 then "-" else "+") ++ pad2 (Z.abs x)
  else if decpt <=? 0 then "0." ++ zeros (Z.to_nat (- decpt)) ++ ds
  else if decpt <? len then
    g (substring 0 (Z.to_nat decpt) ds) ++ "."
      ++ substring (Z.to_nat decpt) (Z.to_nat (len - decpt)) ds
  else g (ds ++ zeros (Z.to_nat (decpt - len))) ++ ".0".

Definition format_repr (grouped : bool) (f : float) : string :=
  match f with
  | S754_nan => "nan"
  | S754_infinity s => sign_str false s ++ "inf"
  | S754_zero s => sign_str false s ++ "0.0"
  | S754_finite s m e => sign_str false s ++ repr_abs grouped m e
  end.

Definition group_int (z : Z) : string :=
  match z with
  | Zneg p => "-" ++ group3 (dec_N (Npos p))
  | _ => group3 (dec_N (Z.to_N z))
  end.

(** *** Dynamically typed values

    [VInt] is a Python int, [VNpInt] a numpy int64 scalar (not an
    instance of [int]), [VFloat] a Python float or a numpy float64
    scalar (an instance of [float]). [VList] and [VDict] are a list and
    a dict, which the metadata of a JSON provider may hold: they are
    given by the [repr] of their items, and of their keys and values,
    which is all the program observes of them. *)
Inductive value :=
| VNone
| VBool (b : bool)
| VInt (z : Z)
| VNpInt (z : Z)
| VFloat (f : float)
| VStr (s : string)
| VList (items : list string)
| VDict (items : list (string * string)).

Definition is_none (v : value) : bool :=
  match v with VNone => true | _ => false end.

(** [isinstance(v, (int, float))]; [bool] subclasses [int]. *)
Definition is_int_or_float (v : value) : bool :=
  match v with
  | VBool _ | VInt _ | VFloat _ => true
  | _ => false
  end.

Definition Z_of_bool (b : bool) : Z := if b then 1 else 0.

(** [sep.join(l)] *)
Fixpoint join (sep : string) (l : list string) : string :=
  match l with
  | [] => ""
  | [x] => x
  | x :: l' => x ++ sep ++ join sep l'
  end.

(** [str(v)], also what an f-string field without a format gives. *)
Definition str (v : value) : string :=
  match v with
  | VNone => "None"
  | VBool b => if b then "True" else "False"
  | VInt z | VNpInt z => dec_Z z
  | VFloat f => format_repr false f
  | VStr s => s
  | VList items => "[" ++ join ", " items ++ "]"
  | VDict items =>
      "{" ++ join ", " (map (fun kv : string * string => kv.1 ++ ": " ++ kv.2) items)
        ++ "}"
  end.

(** [f"{v:.2f}"], [f"{v:+.2f}"] and [f"{v:,.2f}"]: an int is first
    converted to a float. *)
Definition format_2f (plus grouped : bool) (v : value) : result string :=
  match v with
  | VFloat f => Ok (format_fixed2 plus grouped f)
  | VInt z => f ← py_float z; Ok (format_fixed2 plus grouped f)
  | VBool b => f ← py_float (Z_of_bool b); Ok (format_fixed2 plus grouped f)
  | VNpInt z => Ok (format_fixed2 plus grouped (float_of_Z z))
  | VStr _ => Raise (Exn ValueError "Unknown format code 'f' for object of type 'str'")
  | VNone => Raise (no_format "NoneType")
  | VList _ => Raise (no_format "list")
  | VDict _ => Raise (no_format "dict")
  end.

(** [f"{v:,}"]. *)
Definition format_comma (v : value) : result string :=
  match v with
  | VFloat f => Ok (format_repr true f)
  | VInt z | VNpInt z => Ok (group_int z)
  | VBool b => Ok (group_int (Z_of_bool b))
  | VStr _ => Raise (Exn ValueError "Cannot specify ',' with 's'.")
  | VNone => Raise (no_format "NoneType")
  | VList _ => Raise (no_format "list")
  | VDict _ => Raise (no_format "dict")
  end.

Fixpoint repeat_str (n : nat) (s : string) : string :=
  match n with
  | O => ""
  | S n' => s ++ repeat_str n' s
  end.

(** [v * 100]. *)
Definition mul100 (v : value) : result value :=
  match v with
  | VFloat f => Ok (VFloat (fmul f (float_of_Z 100)))
  | VInt z => Ok (VInt (z * 100))
  | VBool b => Ok (VInt (Z_of_bool b * 100))
  | VNpInt z => Ok (VNpInt (wrap64 (z * 100)))
  | VStr s => Ok (VStr (repeat_str 100 s))
  | VNone => Raise (no_operand "*" "NoneType" "int")
  | VList items => Ok (VList (Nat.iter 100 (app items) []))
  | VDict _ => Raise (no_operand "*" "dict" "int")
  end.

(** Exact comparison [z >= t] of an integer with a float. *)
Definition int_ge_float (z : Z) (t : float) : bool :=
  match t with
  | S754_nan => false
  | S754_infinity s => s
  | S754_zero _ => 0 <=? z
  | S754_finite s m e =>
      let tm := if s then Zneg m else Zpos m in
      if 0 <=? e then tm * 2 ^ e <=? z else tm <=? z * 2 ^ (- e)
  end.

(** [v >= t] for a float [t]. *)
Definition ge_float (v : value) (t : float) : result bool :=
  match v with
  | VFloat f => Ok (fle t f)
  | VInt z => Ok (int_ge_float z t)
  | VBool b => Ok (int_ge_float (Z_of_bool b) t)
  | VNpInt z => Ok (fle t (float_of_Z z))
  | VStr _ => Raise (no_order "str" "float")
  | VNone => Raise (no_order "NoneType" "float")
  | VList _ => Raise (no_order "list" "float")
  | VDict _ => Raise (no_order "dict" "float")
  end.

(** [v >= 0]. *)
Definition ge_zero (v : value) : result bool :=
  match v with
  | VFloat f => Ok (fle (S754_zero false) f)
  | VInt z | VNpInt z => Ok (0 <=? z)
  | VBool b => Ok true
  | VStr _ => Raise (no_order "str" "int")
  | VNone => Raise (no_order "NoneType" "int")
  | VList _ => Raise (no_order "list" "int")
  | VDict _ => Raise (no_order "dict" "int")
  end.

(** [v / t] for a non-zero float [t]. *)
Definition truediv (v : value) (t : float) : result float :=
  match v with
  | VFloat f => Ok (fdiv f t)
  | VInt z => f ← py_float z; Ok (fdiv f t)
  | VBool b => f ← py_float (Z_of_bool b); Ok (fdiv f t)
  | VNpInt z => Ok (fdiv (float_of_Z z) t)
  | VStr _ => Raise (no_operand "/" "str" "float")
  | VNone => Raise (no_operand "/" "NoneType" "float")
  | VList _ => Raise (no_operand "/" "list" "float")
  | VDict _ => Raise (no_operand "/" "dict" "float")
  end.

(** *** Text

    [upper] and [strip] are [str.upper] and [str.strip] on ASCII text:
    the letters a to z are raised, and the white space removed is the
    ASCII one (codes 9 to 13 and 28 to 32). On other text Python also
    maps letters and removes spaces that are outside ASCII, which these
    byte-wise functions leave as they are ([is_ascii] below is the
    hypothesis of what is proved about them). *)

Definition upper_ascii (c : ascii) : ascii :=
  let n := nat_of_ascii c in
  if (97 <=? n)%nat && (n <=? 122)%nat then ascii_of_nat (n - 32) else c.

Fixpoint upper (s : string) : string :=
  match s with
  | EmptyString => EmptyString
  | String c s' => String (upper_ascii c) (upper s')
  end.

Definition is_space (c : ascii) : bool :=
  let n := nat_of_ascii c in
  ((9 <=? n)%nat && (n <=? 13)%nat) || ((28 <=? n)%nat && (n <=? 32)%nat).

Fixpoint lstrip (s : string) : string :=
  match s with
  | EmptyString => EmptyString
  | String c s' => if is_space c then lstrip s' else s
  end.

Fixpoint rstrip (s : string) : string :=
  match s with
  | EmptyString => EmptyString
  | String c s' =>
      match rstrip s' with
      | EmptyString => if is_space c then EmptyString else String c EmptyString
      | r => String c r
      end
  end.

Definition strip (s : string) : string := rstrip (lstrip s).

(** [f"{s:<25}"]. *)
Definition ljust (width : nat) (s : string) : string :=
  s ++ repeat_str (width - String.length s) " ".

End Py.
Export Py.

(** ** The program *)

Module StockCLI.

(** *** Class constants *)

Definition DEFAULT_PERIOD : string := "2d".
Definition TRILLION : float := float_of_Z (10 ^ 12).
Definition BILLION : float := float_of_Z (10 ^ 9).
Definition MILLION : float := float_of_Z (10 ^ 6).
Definition THOUSAND : float := float_of_Z (10 ^ 3).

(** *** [self.colors]: a table with six fixed keys *)

Record color_table := Colors {
  green : string; red : string; yellow : string;
  blue : string; bold : string; reset : string }.

Definition esc (code : string) : string := String "027" code.

Definition default_colors : color_table :=
  Colors (esc "[92m") (esc "[91m") (esc "[93m") (esc "[94m") (esc "[1m") (esc "[0m").

(** [{color: '' for color in self.colors}] *)
Definition blank_colors : color_table := Colors "" "" "" "" "" "".

Definition color_code (t : color_table) (name : string) : option string :=
  if String.eqb name "green" then Some (green t)
  else if String.eqb name "red" then Some (red t)
  else if String.eqb name "yellow" then Some (yellow t)
  else if String.eqb name "blue" then Some (blue t)
  else if String.eqb name "bold" then Some (bold t)
  else if String.eqb name "reset" then Some (reset t)
  else None.

(** *** The field catalog, in declaration order *)

Definition field_categories : list (string * list (string * string)) :=
  [ ("Basic Info",
     [ ("longName", "Company Name"); ("shortName", "Short Name");
       ("symbol", "Symbol"); ("exchange", "Exchange");
       ("quoteType", "Quote Type"); ("market", "Market");
       ("marketState", "Market State"); ("currency", "Currency");
       ("timeZoneFullName", "Time Zone") ]);
    ("Price & Volume",
     [ ("currentPrice", "Current Price"); ("previousClose", "Previous Close");
       ("open", "Open"); ("dayLow", "Day Low"); ("dayHigh", "Day High");
       ("volume", "Volume"); ("averageVolume", "Avg Volume");
       ("averageVolume10days", "Avg Volume (10d)"); ("bid", "Bid");
       ("ask", "Ask"); ("bidSize", "Bid Size"); ("askSize", "Ask Size") ]);
    ("Market Metrics",
     [ ("marketCap", "Market Cap"); ("enterpriseValue", "Enterprise Value");
       ("floatShares", "Float Shares");
       ("sharesOutstanding", "Shares Outstanding");
       ("sharesShort", "Shares Short");
       ("sharesShortPreviousMonthDate", "Short Month Date");
       ("sharesShortPriorMonth", "Short Prior Month");
       ("shortRatio", "Short Ratio");
       ("shortPercentOfFloat", "Short % of Float") ]);
    ("Valuation Ratios",
     [ ("trailingPE", "P/E Ratio (TTM)"); ("forwardPE", "Forward P/E");
       ("pegRatio", "PEG Ratio"); ("priceToBook", "Price/Book");
       ("enterpriseToRevenue", "Enterprise/Revenue");
       ("enterpriseToEbitda", "Enterprise/EBITDA");
       ("bookValue", "Book Value");
       ("priceToSalesTrailing12Months", "Price/Sales") ]);
    ("Financial Metrics",
     [ ("revenue", "Revenue"); ("revenuePerShare", "Revenue/Share");
       ("revenueGrowth", "Revenue Growth"); ("grossProfits", "Gross Profits");
       ("freeCashflow", "Free Cash Flow");
       ("operatingCashflow", "Operating Cash Flow");
       ("earningsGrowth", "Earnings Growth");
       ("earningsQuarterlyGrowth", "Quarterly Earnings Growth");
       ("returnOnAssets", "ROA"); ("returnOnEquity", "ROE");
       ("returnOnCapital", "ROIC"); ("profitMargins", "Profit Margin");
       ("operatingMargins", "Operating Margin");
       ("ebitdaMargins", "EBITDA Margin"); ("grossMargins", "Gross Margin") ]);
    ("Dividend Info",
     [ ("dividendRate", "Dividend Rate"); ("dividendYield", "Dividend Yield");
       ("payoutRatio", "Payout Ratio");
       ("fiveYearAvgDividendYield", "5Y Avg Dividend Yield");
       ("exDividendDate", "Ex-Dividend Date");
       ("lastDividendDate", "Last Dividend Date");
       ("lastDividendValue", "Last Dividend Value") ]);
    ("Analyst Info",
     [ ("targetMeanPrice", "Target Mean Price");
       ("targetMedianPrice", "Target Median Price");
       ("targetHighPrice", "Target High Price");
       ("targetLowPrice", "Target Low Price");
       ("numberOfAnalystOpinions", "Analyst Opinions");
       ("recommendationMean", "Recommendation");
       ("recommendationKey", "Recommendation Key") ]);
    ("Technical Indicators",
     [ ("fiftyDayAverage", "50-Day Average");
       ("twoHundredDayAverage", "200-Day Average");
       ("fiftyTwoWeekLow", "52-Week Low"); ("fiftyTwoWeekHigh", "52-Week High");
       ("fiftyTwoWeekChange", "52-Week Change");
       ("fiftyTwoWeekChangePercent", "52-Week Change %") ]);
    ("Company Info",
     [ ("industry", "Industry"); ("sector", "Sector"); ("country", "Country");
       ("state", "State"); ("city", "City"); ("zip", "ZIP"); ("phone", "Phone");
       ("website", "Website"); ("businessSummary", "Business Summary");
       ("fullTimeEmployees", "Full-Time Employees") ]) ].

(** [dict.update]: a later entry replaces an earlier one with its key. *)
Definition dict_update {V} (d : gmap string V) (items : list (string * V))
  : gmap string V :=
  foldl (fun acc kv => <[kv.1 := kv.2]> acc) d items.

Definition all_fields : gmap string string :=
  foldl (fun acc cat => dict_update acc cat.2) ∅ field_categories.

(** [self.all_fields.keys()] *)
Definition all_field_keys : list string :=
  flat_map (fun cat => map fst cat.2) field_categories.

(** *** The cli object and what it gets from its environment

    [locale_currency v] is [locale.currency(v, grouping=True)], [None]
    when it raises; [now] is [datetime.now()] already formatted. *)
Record cli := Cli {
  colors : color_table;
  locale_currency : value -> option string }.

Definition colorize (self : cli) (text color : string) : string :=
  match color_code (colors self) color with
  | Some code => code ++ text ++ reset (colors self)
  | None => text
  end.

(** *** Formatter *)

Definition format_currency (self : cli) (v : value) : result string :=
  match locale_currency self v with
  | Some s => Ok s
  | None => s ← format_2f false true v; Ok ("$" ++ s)
  end.

Definition format_percentage (v : value) : result string :=
  s ← format_2f true false v; Ok (s ++ "%").

Definition format_large_number (v : value) : result string :=
  t ← ge_float v TRILLION;
  if t : bool then q ← truediv v TRILLION; Ok ("$" ++ format_fixed2 false false q ++ "T")
  else
  b ← ge_float v BILLION;
  if b : bool then q ← truediv v BILLION; Ok ("$" ++ format_fixed2 false false q ++ "B")
  else
  m ← ge_float v MILLION;
  if m : bool then q ← truediv v MILLION; Ok ("$" ++ format_fixed2 false false q ++ "M")
  else
  k ← ge_float v THOUSAND;
  if k : bool then q ← truediv v THOUSAND; Ok ("$" ++ format_fixed2 false false q ++ "K")
  else s ← format_2f false true v; Ok ("$" ++ s).

Definition ratio_fraction_fields : list string :=
  [ "dividendYield"; "payoutRatio"; "profitMargins"; "operatingMargins";
    "ebitdaMargins"; "grossMargins"; "returnOnAssets"; "returnOnEquity";
    "returnOnCapital"; "revenueGrowth"; "earningsGrowth";
    "earningsQuarterlyGrowth"; "fiftyTwoWeekChangePercent";
    "shortPercentOfFloat" ].

Definition large_currency_fields : list string :=
  [ "marketCap"; "enterpriseValue"; "revenue"; "grossProfits";
    "freeCashflow"; "operatingCashflow"; "targetMeanPrice";
    "targetMedianPrice"; "targetHighPrice"; "targetLowPrice";
    "fiftyDayAverage"; "twoHundredDayAverage"; "fiftyTwoWeekLow";
    "fiftyTwoWeekHigh"; "fiftyTwoWeekChange"; "bookValue";
    "dividendRate"; "lastDividendValue" ].

Definition plain_ratio_fields : list string :=
  [ "trailingPE"; "forwardPE"; "pegRatio"; "priceToBook";
    "enterpriseToRevenue"; "enterpriseToEbitda";
    "priceToSalesTrailing12Months"; "shortRatio"; "recommendationMean" ].

Definition count_fields : list string :=
  [ "volume"; "averageVolume"; "averageVolume10days"; "bidSize"; "askSize";
    "floatShares"; "sharesOutstanding"; "sharesShort";
    "sharesShortPriorMonth"; "numberOfAnalystOpinions"; "fullTimeEmployees" ].

Definition mem (k : string) (l : list string) : bool := bool_decide (k ∈ l).

Definition format_field_value (field_key : string) (v : value) : result string :=
  if is_none v then Ok "N/A"
  else if mem field_key ratio_fraction_fields then
    if is_int_or_float v
    then x ← mul100 v; s ← format_2f false false x; Ok (s ++ "%")
    else Ok (str v)
  else if mem field_key large_currency_fields then
    if is_int_or_float v then format_large_number v else Ok (str v)
  else if mem field_key plain_ratio_fields then
    if is_int_or_float v then format_2f false false v else Ok (str v)
  else if mem field_key count_fields then
    if is_int_or_float v then format_comma v else Ok (str v)
  else Ok (str v).

(** *** What the data provider returns

    A historical frame has an index of dates and named columns, every
    column as long as the index; a cell is a numpy float64 or int64. *)

Record date := Date { year : nat; month : nat; day : nat }.

(** [d.strftime('%d/%m/%Y')] *)
Definition strftime_dmy (d : date) : string :=
  pad2 (Z.of_nat (day d)) ++ "/" ++ pad2 (Z.of_nat (month d)) ++ "/"
    ++ dec_Z (Z.of_nat (year d)).

Inductive cell :=
| CFloat (f : float)
| CInt (z : Z).

Definition value_of_cell (c : cell) : value :=
  match c with
  | CFloat f => VFloat f
  | CInt z => VNpInt z
  end.

Definition to_float (c : cell) : float :=
  match c with
  | CFloat f => f
  | CInt z => float_of_Z z
  end.

(** [a - b] *)
Definition cell_sub (a b : cell) : cell :=
  match a, b with
  | CInt x, CInt y => CInt (wrap64 (x - y))
  | _, _ => CFloat (fsub (to_float a) (to_float b))
  end.

(** [c != 0] *)
Definition cell_ne_zero (c : cell) : bool :=
  match c with
  | CFloat f => negb (feq f (S754_zero false))
  | CInt z => negb (z =? 0)
  end.

(** [(a / b) * 100]; numpy never raises here. *)
Definition cell_percent (a b : cell) : float :=
  fmul (fdiv (to_float a) (to_float b)) (float_of_Z 100).

(** [(change / previous_close) * 100 if previous_close != 0 else 0] *)
Definition percent_change (change previous_close : cell) : value :=
  if cell_ne_zero previous_close
  then VFloat (cell_percent change previous_close)
  else VInt 0.

Record frame := Frame {
  nrows : nat;
  index : vec date nrows;
  columns : gmap string (vec cell nrows) }.

(** [hist.empty]: no row or no column. *)
Definition frame_empty (h : frame) : bool :=
  (nrows h =? 0)%nat || (size (columns h) =? 0)%nat.

(** ['name' in hist.columns] *)
Definition has_column (h : frame) (name : string) : bool :=
  bool_decide (is_Some (columns h !! name)).

(** [hist['name']] *)
Definition column (h : frame) (name : string) : result (vec cell (nrows h)) :=
  match columns h !! name with
  | Some c => Ok c
  | None => Raise (key_error name)
  end.

(** [c.iloc[i]], a negative [i] counting from the end. *)
Definition iloc {n} (c : vec cell n) (i : Z) : result cell :=
  let j := if i <? 0 then Z.of_nat n + i else i in
  match (if 0 <=? j then vec_to_list c !! Z.to_nat j else None) with
  | Some x => Ok x
  | None => Raise (Exn IndexError "single positional indexer is out-of-bounds")
  end.

(** A ticker of the provider: its metadata and its history by period,
    each either delivered or failing with an exception. *)
Record ticker := Ticker {
  info : result (gmap string value);
  history : string -> result frame }.

Definition provider : Type := string -> ticker.

(** *** Data fetcher *)

(** [d[k]] and [d.get(k)] *)
Definition getitem (d : gmap string value) (k : string) : result value :=
  match d !! k with
  | Some v => Ok v
  | None => Raise (key_error k)
  end.

Definition dict_get (d : gmap string value) (k : string) : value :=
  default VNone (d !! k).

(** The loop over [self.all_fields.keys()], and its body. *)
Definition merge_step (info data : gmap string value) (field_key : string)
  : gmap string value :=
  match info !! field_key with
  | Some v => if is_none v then data else <[field_key := v]> data
  | None => data
  end.

Definition merge_info (info data : gmap string value) : gmap string value :=
  foldl (merge_step info) data all_field_keys.

(** [info.get('longName', info.get('shortName', symbol))] *)
Definition name_of (info : gmap string value) (symbol : string) : value :=
  match info !! "longName" with
  | Some v => v
  | None => match info !! "shortName" with
            | Some v => v
            | None => VStr symbol
            end
  end.

(** The dictionary literal [data = {...}] of [get_stock_data]. *)
Definition base_record (symbol name current_price previous_close change
    change_percent volume high low timestamp : value) : gmap string value :=
  dict_update ∅
    [ ("symbol", symbol); ("name", name);
      ("current_price", current_price);
      ("previous_close", previous_close);
      ("change", change);
      ("change_percent", change_percent);
      ("volume", volume); ("high", high); ("low", low);
      ("timestamp", timestamp) ].

(** [hist[name].iloc[-1] if name in hist.columns else dflt] *)
Definition last_or (h : frame) (name : string) (dflt : value) : result value :=
  if has_column h name
  then c ← column h name; x ← iloc c (-1); Ok (value_of_cell x)
  else Ok dflt.

(** The body of the [try] of [get_stock_data], [symbol] normalised. *)
Definition stock_data_body (yf : provider) (now symbol : string)
  : result (option (gmap string value)) :=
  let ticker := yf symbol in
  info ← info ticker;
  hist ← history ticker "2d";
  if frame_empty hist then Ok None
  else
    close ← column hist "Close";
    current_price ← iloc close (-1);
    previous_close ← (if (1 <? nrows hist)%nat then iloc close (-2)
                       else Ok current_price);
    let change := cell_sub current_price previous_close in
    let change_percent := percent_change change previous_close in
    volume ← last_or hist "Volume" (VInt 0);
    high ← last_or hist "High" (value_of_cell current_price);
    low ← last_or hist "Low" (value_of_cell current_price);
    let data :=
      base_record (VStr symbol) (name_of info symbol) (value_of_cell current_price)
        (value_of_cell previous_close) (value_of_cell change) change_percent
        volume high low (VStr now) in
    Ok (Some (merge_info info data)).

(** The returned record (or [None]) and what was printed to stderr. *)
Definition get_stock_data (yf : provider) (now symbol : string)
  : option (gmap string value) * list string :=
  let symbol := strip (upper symbol) in
  match stock_data_body yf now symbol with
  | Ok r => (r, [])
  | Raise e =>
      (None, ["Error fetching data for " ++ symbol ++ ": " ++ message e])
  end.

Record historical := Historical {
  h_symbol : string;
  dates : list string;
  prices : list cell;
  volumes : list cell;
  highs : list cell;
  lows : list cell;
  opens : list cell }.

(** [hist[name].tolist() if name in hist.columns else []] *)
Definition tolist_or_empty (h : frame) (name : string) : result (list cell) :=
  if has_column h name
  then c ← column h name; Ok (vec_to_list c)
  else Ok [].

Definition historical_data_body (yf : provider) (symbol period : string)
  : result (option historical) :=
  let ticker := yf symbol in
  hist ← history ticker period;
  if frame_empty hist then Ok None
  else
    let dates := map strftime_dmy (vec_to_list (index hist)) in
    close ← column hist "Close";
    volumes ← tolist_or_empty hist "Volume";
    highs ← tolist_or_empty hist "High";
    lows ← tolist_or_empty hist "Low";
    opens ← tolist_or_empty hist "Open";
    Ok (Some (Historical symbol dates (vec_to_list close) volumes highs lows opens)).

Definition get_historical_data (yf : provider) (symbol period : string)
  : option historical * list string :=
  let symbol := strip (upper symbol) in
  match historical_data_body yf symbol period with
  | Ok r => (r, [])
  | Raise e =>
      (None, ["Error fetching historical data for " ++ symbol ++ ": " ++ message e])
  end.

(** *** Presenter

    An output is the list of texts given to [print] and the exception
    that stopped the printing, if one was raised. *)

Definition out : Type := list string * option exn.

Definition print (s : string) : out := ([s], None).
Definition skip : out := ([], None).

Definition seq (a b : out) : out :=
  match a with
  | (l, None) => (app l b.1, b.2)
  | (l, Some e) => (l, Some e)
  end.

Definition with_result {A} (r : result A) (k : A -> out) : out :=
  match r with
  | Ok a => k a
  | Raise e => ([], Some e)
  end.

Notation "a >> b" := (seq a b) (at level 62, right associativity).

Definition nl : string := String "010" "".

Definition rule (self : cli) : string := colorize self (repeat_str 60 "=") "bold".

Definition _display_detailed_info (self : cli) (data : gmap string value) : out :=
  print (nl ++ colorize self "Additional Info:" "bold") >>
  match data !! "marketCap" with
  | Some v => with_result (format_large_number v)
                (fun s => print ("  Market Cap: " ++ s))
  | None => skip
  end >>
  match data !! "trailingPE" with
  | Some v => with_result (format_2f false false v)
                (fun s => print ("  P/E Ratio: " ++ s))
  | None => skip
  end >>
  match data !! "dividendYield" with
  | Some v => with_result (x ← mul100 v; format_2f false false x)
                (fun s => print ("  Dividend Yield: " ++ s ++ "%"))
  | None => skip
  end.

(** One iteration of the loop of [_display_specific_fields]. *)
Definition specific_field (data : gmap string value) (field : string) : out :=
  match all_fields !! field with
  | Some display_name =>
      with_result (format_field_value field (dict_get data field))
        (fun formatted_value => print ("  " ++ display_name ++ ": " ++ formatted_value))
  | None => print ("  " ++ field ++ ": Field not available")
  end.

Definition _display_specific_fields (self : cli) (data : gmap string value)
    (fields : list string) : out :=
  print (nl ++ colorize self "Requested Fields:" "bold") >>
  foldr (fun field rest => specific_field data field >> rest) skip fields.

(** The inner loop of [_display_all_fields]: [category_data]. *)
Fixpoint category_data (data : gmap string value) (fields : list (string * string))
  : result (list (string * string)) :=
  match fields with
  | [] => Ok []
  | (field_key, display_name) :: rest =>
      match data !! field_key with
      | Some v =>
          if is_none v then category_data data rest
          else
            formatted_value ← format_field_value field_key v;
            more ← category_data data rest;
            Ok ((display_name, formatted_value) :: more)
      | None => category_data data rest
      end
  end.

Definition category_block (self : cli) (data : gmap string value)
    (cat : string * list (string * string)) : out :=
  with_result (category_data data cat.2)
    (fun rows =>
       match rows with
       | [] => skip
       | _ =>
           print (nl ++ colorize self (cat.1 ++ ":") "bold") >>
           foldr (fun row rest => print ("  " ++ row.1 ++ ": " ++ row.2) >> rest)
                 skip rows
       end).

Definition _display_all_fields (self : cli) (data : gmap string value) : out :=
  foldr (fun cat rest => category_block self data cat >> rest) skip field_categories.

(** Truth value of the [specific_fields] argument. *)
Definition truthy (fields : option (list string)) : bool :=
  match fields with
  | Some (_ :: _) => true
  | _ => false
  end.

Definition up_marker : string := "▲".
Definition down_marker : string := "▼".

(** The sections of [display_stock_info], named after its comments. *)

Definition header (self : cli) (data : gmap string value) : out :=
  print (nl ++ rule self) >>
  with_result (getitem data "name") (fun name =>
  with_result (getitem data "symbol") (fun symbol =>
    let name_symbol := str name ++ " (" ++ str symbol ++ ")" in
    print (colorize self name_symbol "bold") >>
    print (rule self))).

Definition price_and_change (self : cli) (data : gmap string value) : out :=
  with_result (change ← getitem data "change"; ge_zero change) (fun up =>
    let price_color := if up : bool then "green" else "red" in
    let change_symbol := if up then up_marker else down_marker in
    with_result (v ← getitem data "current_price"; format_currency self v)
      (fun price =>
    print (nl ++ colorize self "Current Price:" "bold" ++ " "
             ++ colorize self price price_color) >>
    with_result (v ← getitem data "change"; format_currency self v) (fun chg =>
    with_result (v ← getitem data "change_percent"; format_percentage v)
      (fun pct =>
    let change_text := change_symbol ++ " " ++ chg ++ " (" ++ pct ++ ")" in
    print (colorize self "Change:" "bold" ++ " "
             ++ colorize self change_text price_color) >>
    with_result (v ← getitem data "previous_close"; format_currency self v)
      (fun prev =>
    print (colorize self "Previous Close:" "bold" ++ " " ++ prev)))))).

Definition trading_info (self : cli) (data : gmap string value) : out :=
  print (nl ++ colorize self "Trading Info:" "bold") >>
  with_result (v ← getitem data "high"; format_currency self v) (fun s =>
    print ("  High: " ++ s)) >>
  with_result (v ← getitem data "low"; format_currency self v) (fun s =>
    print ("  Low: " ++ s)) >>
  with_result (v ← getitem data "volume"; format_comma v) (fun s =>
    print ("  Volume: " ++ s)).

Definition additional_info (self : cli) (data : gmap string value)
    (detailed : bool) (specific_fields : option (list string)) (show_all : bool)
  : out :=
  if detailed || truthy specific_fields || show_all then
    if show_all then _display_all_fields self data
    else if truthy specific_fields
         then _display_specific_fields self data (default [] specific_fields)
         else _display_detailed_info self data
  else skip.

Definition footer (self : cli) (data : gmap string value) : out :=
  with_result (getitem data "timestamp") (fun ts =>
    print (nl ++ colorize self "Last Updated:" "bold" ++ " " ++ str ts)) >>
  print (rule self ++ nl).

Definition display_stock_info (self : cli) (data : gmap string value)
    (detailed : bool) (specific_fields : option (list string)) (show_all : bool)
  : out :=
  if (size data =? 0)%nat then print "No data available for this symbol."
  else
    header self data >>
    price_and_change self data >>
    (if detailed then trading_info self data else skip) >>
    additional_info self data detailed specific_fields show_all >>
    footer self data.

(** *** Chart renderer: the calls made to the plotting library *)

Inductive plot_call :=
| ClearFigure
| Theme (name : string)
| PlotLine (xs : list string) (ys : list cell) (color : string)
| PlotBar (xs : list string) (ys : list cell) (color : string)
| Title (s : string)
| XLabel (s : string)
| YLabel (s : string)
| Show.

(** What a run does to the outside: texts on the two streams (each
    followed by a line end), calls to the plotting library, and
    [print(json.dumps(obj, indent=2))], the serialisation itself being
    the JSON library's. *)
Inductive event :=
| Stdout (s : string)
| Stderr (s : string)
| Plot (c : plot_call)
| JsonDumps (obj : gmap string value).

Definition chart_calls (data : historical) (symbol period chart_type : string)
  : list event :=
  if String.eqb chart_type "line" then
    [ Plot (PlotLine (dates data) (prices data) "green");
      Plot (Title (symbol ++ " Stock Price - " ++ period));
      Plot (XLabel "Date"); Plot (YLabel "Price ($)"); Plot Show ]
  else if String.eqb chart_type "volume" then
    if (0 <? length (volumes data))%nat then
      [ Plot (PlotBar (dates data) (volumes data) "blue");
        Plot (Title (symbol ++ " Trading Volume - " ++ period));
        Plot (XLabel "Date"); Plot (YLabel "Volume"); Plot Show ]
    else [Stdout "Volume data not available"]
  else [].

Definition display_chart (plotext_available : bool) (yf : provider)
    (symbol period chart_type : string) : list event :=
  if negb plotext_available
  then [Stdout "Charting requires plotext library. Install with: pip install plotext"]
  else
    let '(data, err) := get_historical_data yf symbol period in
    app (map Stderr err)
      match data with
      | None => [Stdout ("Could not fetch historical data for " ++ symbol)]
      | Some data =>
          Plot ClearFigure :: Plot (Theme "dark")
            :: chart_calls data symbol period chart_type
      end.

Definition _list_available_fields (self : cli) : list string :=
  app [ colorize self "Available Fields:" "bold"; repeat_str 50 "=" ]
 (app (flat_map (fun cat : string * list (string * string) =>
                   (nl ++ colorize self cat.1 "bold")
                     :: repeat_str (String.length cat.1) "-"
                     :: map (fun kv : string * string =>
                               "  " ++ ljust 25 kv.1 ++ " - " ++ kv.2) cat.2)
                field_categories)
      [ nl ++ colorize self "Usage Examples:" "bold"; repeat_str 20 "-";
        "  stk AAPL --all";
        "  stk NVDA --fields marketCap trailingPE dividendYield";
        "  stk TSLA --fields revenue profitMargins returnOnEquity" ]).

(** *** CLI driver, from the parsed arguments on

    Dictionaries are objects in a store, so that [data.copy()] and the
    [del] on the copy are distinguished from an update of [data]. *)

Record args := Args {
  arg_symbol : option string;
  arg_detailed : bool;
  arg_json : bool;
  arg_no_colors : bool;
  arg_chart : bool;
  arg_period : string;
  arg_type : string;
  arg_all : bool;
  arg_fields : option (list string);
  arg_list_fields : bool }.

Definition loc : Type := positive.

(** A new dictionary object holding [d]. *)
Definition alloc (σ : gmap loc (gmap string value)) (d : gmap string value)
  : loc * gmap loc (gmap string value) :=
  let l := fresh (dom σ) in (l, <[l := d]> σ).

(** [l.copy()]: a new object with the entries of the object at [l]. *)
Definition dict_copy (σ : gmap loc (gmap string value)) (l : loc)
  : loc * gmap loc (gmap string value) :=
  alloc σ (default ∅ (σ !! l)).

(** [del l[k]] updates the object at [l] in place. *)
Definition dict_del (σ : gmap loc (gmap string value)) (l : loc) (k : string)
  : result (gmap loc (gmap string value)) :=
  match σ !! l with
  | Some d =>
      match d !! k with
      | Some _ => Ok (<[l := delete k d]> σ)
      | None => Raise (key_error k)
      end
  | None => Raise (key_error k)
  end.

(** How a run ends: it returns, it exits with a status ([sys.exit], and
    [parser.error], which exits with status 2), or an exception leaves
    it. *)
Inductive status :=
| Returned
| Exit (code : Z)
| Uncaught (e : exn).

Record run_result := RunResult {
  final_store : gmap loc (gmap string value);
  events : list event;
  final_status : status }.

Definition status_of (o : out) : status :=
  match o.2 with
  | None => Returned
  | Some e => Uncaught e
  end.

(** What [run] gets from outside the program: whether the plotting
    library was imported, the data provider, the clock reading already
    formatted, [json.dumps(_, indent=2)], and from the argument parser
    the program name and the text of [parser.format_usage()], without
    its final line end. *)
Record env := Env {
  plotext_available : bool;
  yf : provider;
  now : string;
  json_dumps : gmap string value -> result string;
  prog : string;
  usage : string }.

(** [parser.error(message)]: the usage text and the message on the
    error stream, then exit with status 2. *)
Definition parser_error (w : env) (message : string) : run_result :=
  RunResult ∅
    [ Stderr (usage w); Stderr (prog w ++ ": error: " ++ message) ]
    (Exit 2).

(** The JSON branch of [run]: [data] is the location of the record. *)
Definition json_output (w : env) (σ : gmap loc (gmap string value)) (data : loc)
  : run_result :=
  let '(json_data, σ1) := dict_copy σ data in
  match dict_del σ1 json_data "timestamp" with
  | Raise e => RunResult σ1 [] (Uncaught e)
  | Ok σ2 =>
      let obj := default ∅ (σ2 !! json_data) in
      match json_dumps w obj with
      | Ok text => RunResult σ2 [JsonDumps obj; Stdout text] Returned
      | Raise e => RunResult σ2 [JsonDumps obj] (Uncaught e)
      end
  end.

Definition before (evs : list event) (r : run_result) : run_result :=
  RunResult (final_store r) (app evs (events r)) (final_status r).

Definition could_not_fetch (symbol : string) : run_result :=
  RunResult ∅
    [ Stdout ("Could not fetch data for symbol: " ++ symbol);
      Stdout "Please check the symbol and try again." ]
    (Exit 1).

(** [run], once the arguments are parsed. *)
Definition run (self : cli) (w : env) (a : args) : run_result :=
  if arg_list_fields a
  then RunResult ∅ (map Stdout (_list_available_fields self)) Returned
  else
    match arg_symbol a with
    | None | Some "" =>
        parser_error w "symbol is required unless using --list-fields"
    | Some symbol =>
        let self :=
          if arg_no_colors a then Cli blank_colors (locale_currency self) else self in
        if arg_chart a
        then RunResult ∅
               (display_chart (plotext_available w) (yf w) symbol
                  (arg_period a) (arg_type a))
               Returned
        else
          let '(fetched, err) := get_stock_data (yf w) (now w) symbol in
          before (map Stderr err)
            match fetched with
            | None => could_not_fetch symbol
            | Some record =>
                if (size record =? 0)%nat then could_not_fetch symbol
                else
                  let '(data, σ) := alloc ∅ record in
                  if arg_json a then json_output w σ data
                  else
                    let o := display_stock_info self (default ∅ (σ !! data))
                               (arg_detailed a) (arg_fields a) (arg_all a) in
                    RunResult σ (map Stdout o.1) (status_of o)
            end
    end.

(** [StockCLI()]: the colour table [__init__] sets, the catalog being
    [field_categories]; and [main], once the arguments are parsed. *)
Definition __init__ (locale_currency : value -> option string) : cli :=
  Cli default_colors locale_currency.

Definition main (locale_currency : value -> option string) (w : env) (a : args)
  : run_result :=
  run (__init__ locale_currency) w a.

End StockCLI.
Export StockCLI.

(** ** Vocabulary of the specification

    Definitions that follow the words of the specification, to be compared
    with the program, and the side conditions the properties mention. *)

Module Spec.

(** A number: a bool, a Python int, a numpy int64 or a float. *)
Definition numeric (v : value) : bool :=
  match v with
  | VBool _ | VInt _ | VNpInt _ | VFloat _ => true
  | _ => false
  end.

(** A Python int within the binary64 range: [float(z)] does not raise. *)
Definition int_fits (z : Z) : bool := is_finite (float_of_Z z).

Definition fits (v : value) : bool :=
  match v with
  | VInt z => int_fits z
  | _ => true
  end.

(** A Python int that fits, and whose hundredfold fits: the formatter
    does not raise on it under any field key. *)
Definition formattable (v : value) : bool :=
  match v with
  | VInt z => int_fits z && int_fits (z * 100)
  | _ => true
  end.

(** The float a number is promoted to. *)
Definition as_float (v : value) : float :=
  match v with
  | VFloat f => f
  | VInt z | VNpInt z => float_of_Z z
  | VBool b => float_of_Z (Z_of_bool b)
  | _ => S754_nan
  end.

(** [v >= t], false when the comparison is not defined. *)
Definition at_least (v : value) (t : float) : bool :=
  match ge_float v t with
  | Ok b => b
  | Raise _ => false
  end.

(** [v == 0] *)
Definition is_zero (v : value) : bool :=
  match v with
  | VFloat f => feq f (S754_zero false)
  | VInt z | VNpInt z => z =? 0
  | VBool b => negb b
  | _ => false
  end.

(** [v * 100] for a bool, a Python int or a float. *)
Definition hundredfold (v : value) : value :=
  match v with
  | VFloat f => VFloat (fmul f (float_of_Z 100))
  | VInt z => VInt (z * 100)
  | VBool b => VInt (Z_of_bool b * 100)
  | _ => v
  end.


Definition text_of (r : result string) : string :=
  match r with
  | Ok s => s
  | Raise _ => ""
  end.

(** The unit thresholds and their suffixes, as a table. *)
Definition units : list (float * string) :=
  [ (TRILLION, "T"); (BILLION, "B"); (MILLION, "M"); (THOUSAND, "K") ].

Definition applies (v : value) (u : float * string) : bool := at_least v u.1.

(** The entry with the greatest threshold. *)
Definition largest (us : list (float * string)) : option (float * string) :=
  foldr (fun u acc =>
           match acc with
           | None => Some u
           | Some w => if fle w.1 u.1 then Some u else Some w
           end)
        None us.

(** "Scale by the largest applicable unit threshold, else format as a
    2-decimal currency amount." *)
Definition large_number_text (v : value) : string :=
  match largest (List.filter (applies v) units) with
  | Some (t, suffix) =>
      "$" ++ format_fixed2 false false (fdiv (as_float v) t) ++ suffix
  | None => "$" ++ format_fixed2 false true (as_float v)
  end.

(** "v >= 10^12 yields the value divided by 10^12 at 2 decimals with
    suffix T, else v >= 10^9 suffix B, else v >= 10^6 suffix M, else
    v >= 10^3 suffix K, else a grouped 2-decimal currency amount." *)
Definition large_number_chain (v : value) : string :=
  if at_least v TRILLION
  then "$" ++ format_fixed2 false false (fdiv (as_float v) TRILLION) ++ "T"
  else if at_least v BILLION
  then "$" ++ format_fixed2 false false (fdiv (as_float v) BILLION) ++ "B"
  else if at_least v MILLION
  then "$" ++ format_fixed2 false false (fdiv (as_float v) MILLION) ++ "M"
  else if at_least v THOUSAND
  then "$" ++ format_fixed2 false false (fdiv (as_float v) THOUSAND) ++ "K"
  else "$" ++ format_fixed2 false true (as_float v).

(** "For each requested key, its catalog label and formatted value, or
    Field not available." *)
Definition requested_line (data : gmap string value) (field : string) : string :=
  match all_fields !! field with
  | Some label =>
      "  " ++ label ++ ": " ++ text_of (format_field_value field (dict_get data field))
  | None => "  " ++ field ++ ": Field not available"
  end.

(** "Present and non-null in the record." *)
Definition present (data : gmap string value) (field_key : string) : bool :=
  match data !! field_key with
  | Some v => negb (is_none v)
  | None => false
  end.


(** A printed field: its label and its formatted value. *)
Definition category_row (data : gmap string value) (kv : string * string)
  : string * string :=
  (kv.2, text_of (format_field_value kv.1 (dict_get data kv.1))).

(** "Iterate categories in catalog order; within a category, print only
    fields present and non-null in the record; omit empty categories
    entirely." *)
Definition category_lines (self : cli) (data : gmap string value)
    (cat : string * list (string * string)) : list string :=
  match List.filter (fun kv : string * string => present data kv.1) cat.2 with
  | [] => []
  | rows =>
      (nl ++ colorize self (cat.1 ++ ":") "bold")
        :: map (fun kv : string * string =>
                  "  " ++ kv.2 ++ ": "
                    ++ text_of (format_field_value kv.1 (dict_get data kv.1)))
               rows
  end.

Definition all_fields_lines (self : cli) (data : gmap string value) : list string :=
  flat_map (category_lines self data) field_categories.

(** "--all takes precedence over --fields, which takes precedence over
    the -d legacy block." *)
Definition selected_block (self : cli) (data : gmap string value)
    (detailed : bool) (specific_fields : option (list string)) (show_all : bool)
  : out :=
  if show_all then _display_all_fields self data
  else if truthy specific_fields
       then _display_specific_fields self data (default [] specific_fields)
       else if detailed then _display_detailed_info self data
            else skip.

(** The fetch delivered a record. *)
Definition delivered {A B} (r : option A * B) : bool :=
  match r.1 with
  | Some _ => true
  | None => false
  end.

(** The last row of a column, and the row before it. *)
Definition last_row {n} (c : vec cell n) : option cell := last (vec_to_list c).
Definition row_before_last {n} (c : vec cell n) : option cell :=
  vec_to_list c !! (n - 2)%nat.

(** "Every catalog field present and non-null in the provider
    metadata." *)
Definition override (info : gmap string value) (k : string) : option value :=
  match info !! k with
  | Some v => if is_none v then None else Some v
  | None => None
  end.

(** A series of the chart data: the column, empty without the column. *)
Definition series_of (h : frame) (name : string) : list cell :=
  match columns h !! name with
  | Some c => vec_to_list c
  | None => []
  end.

(** The last row of the named column, the default without the column. *)
Definition last_or_default (h : frame) (name : string) (dflt : value) : value :=
  match columns h !! name with
  | Some c => from_option value_of_cell dflt (last_row c)
  | None => dflt
  end.

(** "Taken from the last row of the column", [dflt] without the column. *)
Definition taken_from (h : frame) (name : string) (dflt v : value) : Prop :=
  match columns h !! name with
  | Some c => exists x, last_row c = Some x /\ v = value_of_cell x
  | None => v = dflt
  end.

(** Neither zero nor not-a-number. *)
Definition finite_or_infinite (x : float) : Prop :=
  match x with
  | S754_finite _ _ _ | S754_infinity _ => True
  | _ => False
  end.

Definition finite_cell (c : cell) : bool :=
  match c with
  | CFloat f => is_finite f
  | CInt _ => true
  end.

(** The keys of the dictionary literal of [get_stock_data]. *)
Definition headline_keys : list string :=
  [ "symbol"; "name"; "current_price"; "previous_close"; "change";
    "change_percent"; "volume"; "high"; "low"; "timestamp" ].

(** Text in the ASCII range, where the byte strings of this development
    and Python's strings have the same [upper] and [strip]. *)
Fixpoint is_ascii (s : string) : bool :=
  match s with
  | EmptyString => true
  | String c s' => (nat_of_ascii c <? 128)%nat && is_ascii s'
  end.

(** The text without its thousands separators. *)
Fixpoint without_commas (s : string) : string :=
  match s with
  | EmptyString => EmptyString
  | String c s' =>
      if Ascii.eqb c "," then without_commas s' else String c (without_commas s')
  end.

(** The sign bit of a float; not-a-number is printed without a sign. *)
Definition signbit (f : float) : bool :=
  match f with
  | S754_zero s | S754_infinity s | S754_finite s _ _ => s
  | S754_nan => false
  end.

(** The exception a call raised, if it raised. *)
Definition raised {A} (r : result A) : option exn :=
  match r with
  | Ok _ => None
  | Raise e => Some e
  end.

(** A line of the legacy block of [-d], as [format_field_value] renders
    the field. *)
Definition formatter_line (data : gmap string value) (field_key label : string)
  : out :=
  match data !! field_key with
  | Some v => with_result (format_field_value field_key v)
                (fun s => print ("  " ++ label ++ ": " ++ s))
  | None => skip
  end.

(** The formatting rule of the key cannot convert the value to a float:
    a Python int beyond the float range under a large-currency or a
    plain-ratio key, or one whose hundredfold is beyond it under a
    ratio-as-fraction key. *)
Definition overflows (field_key : string) (v : value) : bool :=
  match v with
  | VInt z =>
      if mem field_key ratio_fraction_fields then negb (int_fits (z * 100))
      else if mem field_key large_currency_fields || mem field_key plain_ratio_fields
           then negb (int_fits z)
           else false
  | _ => false
  end.

(** Some catalog key of the record holds a value that overflows under
    it. *)
Definition catalog_overflows (data : gmap string value) : bool :=
  existsb (fun k => overflows k (dict_get data k)) all_field_keys.

End Spec.
Export Spec.

(** ** Sample inputs *)

Module Sample.

(** A terminal without colours in the C locale, where
    [locale.currency] raises. *)
Definition plain : cli := Cli blank_colors (fun _ => None).

(** A provider that delivers the same metadata and history for every
    symbol and period. *)
Definition serve (i : gmap string value) (h : frame) : provider :=
  fun _ => Ticker (Ok i) (fun _ => Ok h).

Definition no_rows : frame := Frame 0 [#] ∅.

Definition one_row (close : cell) : frame :=
  Frame 1 [# Date 2024 1 3] {[ "Close" := [# close] ]}.

Definition no_close : frame :=
  Frame 1 [# Date 2024 1 3] {[ "Open" := [# CFloat (float_of_Z 100)] ]}.

Definition two_rows : frame :=
  Frame 2 [# Date 2024 1 2; Date 2024 1 3]
    (<["Close" := [# CFloat (float_of_Z 100); CFloat (float_of_Z 110)]]>
       (<["High" := [# CFloat (float_of_Z 105); CFloat (float_of_Z 112)]]>
          (<["Volume" := [# CInt 5000; CInt 1234567]]> ∅))).

Definition clock : string := "2024-01-03 10:00:00".

(** 0.1234 and 12.5 *)
Definition f_0_1234 : float := fdiv (float_of_Z 1234) (float_of_Z 10000).
Definition f_12_5 : float := fdiv (float_of_Z 25) (float_of_Z 2).

Definition huge : Z := 10 ^ 400.

Definition apple : gmap string value :=
  <["longName" := VStr "Apple Inc."]>
    (<["marketCap" := VInt 3000000000000]>
       (<["trailingPE" := VFloat f_12_5]> ∅)).

(** The record fetched for [apple] over [two_rows]. *)
Definition fetched_apple : gmap string value :=
  default ∅ (get_stock_data (serve apple two_rows) clock "aapl").1.

(** Metadata with a market capitalisation beyond the float range, and
    metadata whose P/E ratio is the text the provider sends for an
    infinite ratio; the records fetched for them. *)
Definition absurd : gmap string value := <["marketCap" := VInt huge]> apple.
Definition odd : gmap string value := <["trailingPE" := VStr "Infinity"]> apple.

Definition fetched_absurd : gmap string value :=
  default ∅ (get_stock_data (serve absurd two_rows) clock "aapl").1.
Definition fetched_odd : gmap string value :=
  default ∅ (get_stock_data (serve odd two_rows) clock "aapl").1.

(** [json.dumps] as far as the samples need it: a numpy int64 is not
    serialisable; the text of a successful call is left out. *)
Definition dumps (obj : gmap string value) : result string :=
  if forallb (fun kv : string * value =>
                match kv.2 with VNpInt _ => false | _ => true end)
       (map_to_list obj)
  then Ok "{...}"
  else Raise (Exn TypeError "Object of type int64 is not JSON serializable").

(** The usage text of the parser on a wide terminal. *)
Definition usage_text : string :=
  "usage: stk [-h] [-d] [--json] [--no-colors] [--chart] "
    ++ "[--period {1d,5d,1mo,3mo,6mo,1y,2y,5y,10y,ytd,max}] "
    ++ "[--type {line,candlestick,volume}] [--all] "
    ++ "[--fields FIELD [FIELD ...]] [--list-fields] [symbol]".

Definition world (i : gmap string value) (h : frame) : env :=
  Env true (serve i h) clock dumps "stk" usage_text.

Definition json_args : args :=
  Args (Some "aapl") false true false false "1mo" "line" false None false.

(** A record with a P/E ratio of 12.5 and a dividend yield of 0.1234. *)
Definition ratios : gmap string value :=
  <["trailingPE" := VFloat f_12_5]> (<["dividendYield" := VFloat f_0_1234]> ∅).

(** An int within the float range whose hundredfold is beyond it. *)
Definition near_top : Z := 2 * 10 ^ 307.

(** A window of one row, and a window whose previous close is 0; the
    records fetched over them. *)
Definition single : frame := one_row (CFloat (float_of_Z 100)).

Definition from_zero : frame :=
  Frame 2 [# Date 2024 1 2; Date 2024 1 3]
    {[ "Close" := [# CFloat (S754_zero false); CFloat (float_of_Z 110)] ]}.

Definition fetched_single : gmap string value :=
  default ∅ (get_stock_data (serve ∅ single) clock "aapl").1.
Definition fetched_from_zero : gmap string value :=
  default ∅ (get_stock_data (serve ∅ from_zero) clock "aapl").1.

(** Metadata that holds the day's volume, as the provider sends it for a
    stock, and the record fetched for it. *)
Definition quoted : gmap string value := <["volume" := VInt 1234567]> apple.

Definition fetched_quoted : gmap string value :=
  default ∅ (get_stock_data (serve quoted two_rows) clock "aapl").1.

Definition plain_args : args :=
  Args (Some "aapl") false false false false "1mo" "line" false None false.

(** Metadata whose volume is a list, and the record fetched for it. *)
Definition listed : gmap string value := <["volume" := VList ["1"]]> apple.

Definition fetched_listed : gmap string value :=
  default ∅ (get_stock_data (serve listed two_rows) clock "aapl").1.

End Sample.

(** * Properties *)

Lemma bind_ok {A B} (r : result A) (f : A -> result B) (b : B) :
  r ≫= f = Ok b -> exists a, r = Ok a /\ f a = Ok b.
Proof. destruct r as [a|e]; simpl; [eauto|discriminate]. Qed.

Lemma bind_raise {A B} (r : result A) (f : A -> result B) (e : exn) :
  r ≫= f = Raise e -> r = Raise e \/ exists a, r = Ok a /\ f a = Raise e.
Proof. destruct r as [a|e']; simpl; [eauto|]. intros [= ->]. auto. Qed.

Lemma merge_fold_lookup info ks : forall data k,
  foldl (merge_step info) data ks !! k =
  if bool_decide (k ∈ ks) then from_option Some (data !! k) (override info k) else data !! k.
Proof.
  induction ks as [|k0 ks IH]; intros data k.
  - cbn [foldl]. rewrite bool_decide_eq_false_2; [done|]. apply not_elem_of_nil.
  - cbn [foldl]. rewrite IH.
    assert (Hstep : merge_step info data k0 !! k =
                    if bool_decide (k = k0) then from_option Some (data !! k) (override info k) else data !! k).
    { unfold merge_step, override. case_bool_decide as Hk.
      - subst k0. destruct (info !! k) as [v|]; [|done].
        destruct (is_none v); [done|]. simpl. apply lookup_insert_eq.
      - destruct (info !! k0) as [v|]; [|done].
        destruct (is_none v); [done|]. apply lookup_insert_ne. congruence. }
    destruct (decide (k = k0)) as [->|Hne].
    + rewrite (bool_decide_eq_true_2 (k0 ∈ k0 :: ks)) by left.
      rewrite Hstep. rewrite (bool_decide_eq_true_2 (k0 = k0)) by done.
      destruct (override info k0); cbn [from_option]; by destruct (bool_decide (k0 ∈ ks)).
    + rewrite Hstep. rewrite (bool_decide_eq_false_2 (k = k0)) by done.
      rewrite (bool_decide_ext (k ∈ k0 :: ks) (k ∈ ks)); [done|].
      rewrite elem_of_cons. split; [intros [?|?]; done | auto].
Qed.

Lemma merge_info_lookup info data k :
  merge_info info data !! k =
  if mem k all_field_keys then from_option Some (data !! k) (override info k) else data !! k.
Proof. apply merge_fold_lookup. Qed.

Lemma base_record_lookup sy na cp pc ch chp vo hi lo ts k :
  base_record sy na cp pc ch chp vo hi lo ts !! k =
  if String.eqb k "timestamp" then Some ts
  else if String.eqb k "low" then Some lo
  else if String.eqb k "high" then Some hi
  else if String.eqb k "volume" then Some vo
  else if String.eqb k "change_percent" then Some chp
  else if String.eqb k "change" then Some ch
  else if String.eqb k "previous_close" then Some pc
  else if String.eqb k "current_price" then Some cp
  else if String.eqb k "name" then Some na
  else if String.eqb k "symbol" then Some sy
  else None.
Proof.
  unfold base_record, dict_update. cbn [foldl fst snd].
  destruct (String.eqb_spec k "timestamp") as [->|?]; [by rewrite lookup_insert_eq|].
  rewrite lookup_insert_ne by congruence.
  destruct (String.eqb_spec k "low") as [->|?]; [by rewrite lookup_insert_eq|].
  rewrite lookup_insert_ne by congruence.
  destruct (String.eqb_spec k "high") as [->|?]; [by rewrite lookup_insert_eq|].
  rewrite lookup_insert_ne by congruence.
  destruct (String.eqb_spec k "volume") as [->|?]; [by rewrite lookup_insert_eq|].
  rewrite lookup_insert_ne by congruence.
  destruct (String.eqb_spec k "change_percent") as [->|?]; [by rewrite lookup_insert_eq|].
  rewrite lookup_insert_ne by congruence.
  destruct (String.eqb_spec k "change") as [->|?]; [by rewrite lookup_insert_eq|].
  rewrite lookup_insert_ne by congruence.
  destruct (String.eqb_spec k "previous_close") as [->|?]; [by rewrite lookup_insert_eq|].
  rewrite lookup_insert_ne by congruence.
  destruct (String.eqb_spec k "current_price") as [->|?]; [by rewrite lookup_insert_eq|].
  rewrite lookup_insert_ne by congruence.
  destruct (String.eqb_spec k "name") as [->|?]; [by rewrite lookup_insert_eq|].
  rewrite lookup_insert_ne by congruence.
  destruct (String.eqb_spec k "symbol") as [->|?]; [by rewrite lookup_insert_eq|].
  rewrite lookup_insert_ne by congruence.
  apply lookup_empty.
Qed.

Lemma iloc_last {n} (c : vec cell n) :
  iloc c (-1) = match last_row c with
                | Some x => Ok x
                | None => Raise (Exn IndexError "single positional indexer is out-of-bounds")
                end.
Proof.
  unfold iloc, last_row. rewrite last_lookup, length_vec_to_list.
  change (-1 <? 0) with true. cbn match.
  destruct n as [|n].
  - inv_vec c. done.
  - replace (0 <=? Z.of_nat (S n) + -1) with true by (symmetry; apply Z.leb_le; lia).
    replace (Z.to_nat (Z.of_nat (S n) + -1)) with (Init.Nat.pred (S n)) by lia.
    done.
Qed.

Lemma last_row_is_Some {n} (c : vec cell n) : n <> 0%nat -> is_Some (last_row c).
Proof.
  intros Hn. unfold last_row. rewrite last_lookup, length_vec_to_list.
  apply lookup_lt_is_Some. rewrite length_vec_to_list. lia.
Qed.

Lemma iloc_before_last {n} (c : vec cell n) :
  (1 < n)%nat ->
  iloc c (-2) = match row_before_last c with
                | Some x => Ok x
                | None => Raise (Exn IndexError "single positional indexer is out-of-bounds")
                end.
Proof.
  intros Hn. unfold iloc, row_before_last.
  change (-2 <? 0) with true. cbn match.
  replace (0 <=? Z.of_nat n + -2) with true by (symmetry; apply Z.leb_le; lia).
  replace (Z.to_nat (Z.of_nat n + -2)) with (n - 2)%nat by lia.
  done.
Qed.

Lemma row_before_last_is_Some {n} (c : vec cell n) :
  (1 < n)%nat -> is_Some (row_before_last c).
Proof.
  intros Hn. unfold row_before_last. apply lookup_lt_is_Some.
  rewrite length_vec_to_list. lia.
Qed.

Lemma frame_nonempty h : frame_empty h = false -> nrows h <> 0%nat.
Proof.
  unfold frame_empty. intros H. apply orb_false_elim in H as [H _].
  by apply Nat.eqb_neq in H.
Qed.

Lemma has_column_true h name :
  has_column h name = true <-> is_Some (columns h !! name).
Proof. unfold has_column. apply bool_decide_eq_true. Qed.

Lemma last_or_ok h name dflt :
  nrows h <> 0%nat -> last_or h name dflt = Ok (last_or_default h name dflt).
Proof.
  intros Hn. unfold last_or, last_or_default, has_column, column.
  destruct (columns h !! name) as [c|] eqn:E.
  - rewrite bool_decide_eq_true_2 by eauto. cbn.
    rewrite iloc_last. destruct (last_row_is_Some c Hn) as [x ->]. done.
  - rewrite bool_decide_eq_false_2; [done|]. intros [? ?]. discriminate.
Qed.

(** What a successful fetch has computed. *)
Lemma stock_data_body_Some yf now s data :
  stock_data_body yf now s = Ok (Some data) ->
  exists i h close cur prev,
    info (yf s) = Ok i /\ history (yf s) "2d" = Ok h /\ nrows h <> 0%nat /\
    columns h !! "Close" = Some close /\ last_row close = Some cur /\
    (if (1 <? nrows h)%nat then row_before_last close = Some prev else prev = cur) /\
    data = merge_info i
             (base_record (VStr s) (name_of i s) (value_of_cell cur)
                (value_of_cell prev) (value_of_cell (cell_sub cur prev))
                (percent_change (cell_sub cur prev) prev)
                (last_or_default h "Volume" (VInt 0))
                (last_or_default h "High" (value_of_cell cur))
                (last_or_default h "Low" (value_of_cell cur))
                (VStr now)).
Proof.
  unfold stock_data_body. intros H.
  destruct (info (yf s)) as [i|] eqn:Ei; [|discriminate].
  destruct (history (yf s) "2d") as [h|] eqn:Eh; [|discriminate].
  cbv beta iota delta [mbind result_bind] in H.
  destruct (frame_empty h) eqn:Ee; [discriminate|].
  pose proof (frame_nonempty h Ee) as Hn.
  unfold column in H.
  destruct (columns h !! "Close") as [close|] eqn:Ec; [|discriminate].
  rewrite iloc_last in H.
  destruct (last_row_is_Some close Hn) as [cur Hcur]. rewrite Hcur in H.
  rewrite !last_or_ok in H by done.
  exists i, h, close, cur.
  destruct (1 <? nrows h)%nat eqn:E1.
  - apply Nat.ltb_lt in E1. rewrite iloc_before_last in H by done.
    destruct (row_before_last_is_Some close E1) as [prev Hprev].
    rewrite Hprev in H. exists prev. by injection H as <-.
  - exists cur. by injection H as <-.
Qed.

Lemma get_stock_data_Some yf now symbol data err :
  get_stock_data yf now symbol = (Some data, err) ->
  err = [] /\ stock_data_body yf now (strip (upper symbol)) = Ok (Some data).
Proof.
  unfold get_stock_data.
  destruct (stock_data_body yf now (strip (upper symbol))) as [[d|]|e]; intros [= <- <-] || intros [=]; done.
Qed.

(** * Data fetcher *)

(** C1 (amended). When the provider delivers the metadata and an empty
    2-day window, [get_stock_data] returns no data without raising, and
    writes nothing to the error stream; the only messages for this case
    are the two texts that [run] then prints on standard output, before
    it exits with status 1. *)
Theorem get_stock_data_empty_window self w a symbol i h :
  info (yf w (strip (upper symbol))) = Ok i ->
  history (yf w (strip (upper symbol))) "2d" = Ok h ->
  frame_empty h = true ->
  get_stock_data (yf w) (now w) symbol = (None, []) /\
  (arg_list_fields a = false -> arg_symbol a = Some symbol -> symbol <> "" ->
   arg_chart a = false ->
   run self w a
   = RunResult ∅
       [ Stdout ("Could not fetch data for symbol: " ++ symbol);
         Stdout "Please check the symbol and try again." ]
       (Exit 1)).
Proof.
  intros Hi Hh He.
  assert (Hg : get_stock_data (yf w) (now w) symbol = (None, [])).
  { unfold get_stock_data, stock_data_body.
    rewrite Hi, Hh. cbv beta iota delta [mbind result_bind]. by rewrite He. }
  split; [done|]. intros Hl Hs Hne Hc.
  unfold run. rewrite Hl, Hs, Hc, Hg. by destruct symbol.
Qed.

Lemma get_stock_data_empty_window_witness :
  get_stock_data (Sample.serve ∅ Sample.no_rows) Sample.clock "aapl" = (None, []) /\
  run Sample.plain (Sample.world ∅ Sample.no_rows) Sample.plain_args
  = RunResult ∅
      [ Stdout "Could not fetch data for symbol: aapl";
        Stdout "Please check the symbol and try again." ]
      (Exit 1).
Proof.
  destruct (get_stock_data_empty_window Sample.plain (Sample.world ∅ Sample.no_rows)
              Sample.plain_args "aapl" ∅ Sample.no_rows eq_refl eq_refl eq_refl)
    as [H1 H2].
  split; [exact H1|]. apply H2; [reflexivity|reflexivity|discriminate|reflexivity].
Defined.

(** C1 as stated fails: the provider succeeds with an empty window, and
    the error stream stays empty. *)
Lemma get_stock_data_empty_window_no_diagnostic :
  info (Sample.serve ∅ Sample.no_rows "AAPL") = Ok ∅ /\
  history (Sample.serve ∅ Sample.no_rows "AAPL") "2d" = Ok Sample.no_rows /\
  frame_empty Sample.no_rows = true /\
  (get_stock_data (Sample.serve ∅ Sample.no_rows) Sample.clock "aapl").1 = None /\
  (get_stock_data (Sample.serve ∅ Sample.no_rows) Sample.clock "aapl").2 = [].
Proof. repeat apply conj; vm_compute; reflexivity. Qed.

Lemma tolist_or_empty_ok h name : tolist_or_empty h name = Ok (series_of h name).
Proof.
  unfold tolist_or_empty, series_of, has_column, column.
  destruct (columns h !! name) as [c|] eqn:E.
  - by rewrite bool_decide_eq_true_2 by eauto.
  - rewrite bool_decide_eq_false_2; [done|]. intros [? ?]. discriminate.
Qed.

Lemma series_of_length h name :
  (columns h !! name = None -> series_of h name = []) /\
  (is_Some (columns h !! name) -> length (series_of h name) = nrows h).
Proof.
  unfold series_of. split.
  - by intros ->.
  - intros [c ->]. apply length_vec_to_list.
Qed.

(** C2 (amended). On a non-empty frame with a [Close] column,
    [get_historical_data] returns the dates, the close series taken from
    that column, and the volume, high, low and open series, each empty when
    its column is absent and as long as the dates otherwise. Without a
    [Close] column it returns no data and reports the missing key. *)
Theorem get_historical_data_series yf symbol period h :
  history (yf (strip (upper symbol))) period = Ok h ->
  frame_empty h = false ->
  match columns h !! "Close" with
  | Some close =>
      exists d,
        get_historical_data yf symbol period = (Some d, []) /\
        h_symbol d = strip (upper symbol) /\
        dates d = map strftime_dmy (vec_to_list (index h)) /\
        prices d = vec_to_list close /\
        length (prices d) = length (dates d) /\
        volumes d = series_of h "Volume" /\
        highs d = series_of h "High" /\
        lows d = series_of h "Low" /\
        opens d = series_of h "Open" /\
        forall name,
          (columns h !! name = None -> series_of h name = []) /\
          (is_Some (columns h !! name) ->
           length (series_of h name) = length (dates d))
  | None =>
      get_historical_data yf symbol period =
      (None, ["Error fetching historical data for " ++ strip (upper symbol) ++ ": 'Close'"])
  end.
Proof.
  intros Hh He. unfold get_historical_data, historical_data_body.
  rewrite Hh. cbv beta iota delta [mbind result_bind]. rewrite He.
  unfold column. destruct (columns h !! "Close") as [close|] eqn:Ec; [|done].
  rewrite !tolist_or_empty_ok. eexists. split; [reflexivity|]. cbn [h_symbol dates prices volumes highs lows opens].
  repeat split; try done.
  - by rewrite length_map, !length_vec_to_list.
  - apply series_of_length.
  - intros Hs. rewrite length_map, length_vec_to_list. by apply series_of_length.
Qed.

Lemma get_historical_data_series_witness :
  exists d,
    get_historical_data (Sample.serve ∅ Sample.two_rows) "aapl" "1mo" = (Some d, []) /\
    length (prices d) = length (dates d) /\ length (volumes d) = length (dates d) /\
    opens d = [] /\ lows d = [].
Proof.
  pose proof (get_historical_data_series (Sample.serve ∅ Sample.two_rows) "aapl" "1mo"
                Sample.two_rows eq_refl eq_refl) as H.
  change (columns Sample.two_rows !! "Close")
    with (Some [# CFloat (float_of_Z 100); CFloat (float_of_Z 110)] : option (vec cell 2)) in H.
  destruct H as (d & Hd & _ & _ & _ & Hp & Hv & _ & Hl & Ho & Hall).
  exists d. split; [exact Hd|]. split; [exact Hp|].
  split; [rewrite Hv; apply Hall; vm_compute; eauto|].
  split; [rewrite Ho|rewrite Hl]; reflexivity.
Defined.

(** C2 as stated fails for the close series: on a non-empty frame without
    a [Close] column no series is returned at all. *)
Lemma get_historical_data_close_required :
  frame_empty Sample.no_close = false /\
  columns Sample.no_close !! "Close" = None /\
  get_historical_data (Sample.serve ∅ Sample.no_close) "aapl" "1mo" =
  (None, ["Error fetching historical data for AAPL: 'Close'"]).
Proof. repeat apply conj; vm_compute; reflexivity. Qed.

(** A successful fetch, named by what it returns. *)
Lemma get_stock_data_fetched yf now symbol :
  delivered (get_stock_data yf now symbol) = true ->
  get_stock_data yf now symbol
  = (Some (default ∅ (get_stock_data yf now symbol).1), []).
Proof.
  unfold delivered.
  destruct (get_stock_data yf now symbol) as [[data|] err] eqn:E; [|done].
  intros _. apply get_stock_data_Some in E as [-> _]. done.
Qed.

(** Lookups in a fetched record. *)
Lemma fetched_lookup i b k :
  merge_info i b !! k =
  if mem k all_field_keys then from_option Some (b !! k) (override i k) else b !! k.
Proof. apply merge_info_lookup. Qed.

Ltac fetched_key :=
  rewrite fetched_lookup, base_record_lookup;
  match goal with
  | |- context [mem ?k all_field_keys] =>
      let b := eval vm_compute in (mem k all_field_keys) in
      replace (mem k all_field_keys) with b by (vm_compute; reflexivity)
  end;
  cbn [String.eqb Ascii.eqb Bool.eqb andb].

Lemma last_or_default_taken_from h name dflt :
  nrows h <> 0%nat -> taken_from h name dflt (last_or_default h name dflt).
Proof.
  intros Hn. unfold taken_from, last_or_default.
  destruct (columns h !! name) as [c|]; [|done].
  destruct (last_row_is_Some c Hn) as [x Hx]. rewrite Hx. eauto.
Qed.

(** C9 (amended). In a fetched record, [high] and [low] are taken from
    the last row of the [High] and [Low] columns, and equal [current_price]
    without the column; [volume] is the provider metadata's [volume] when
    that is present and not null, and otherwise the last row of the
    [Volume] column, or 0 without the column. *)
Theorem get_stock_data_volume_high_low yf now symbol data err i h :
  get_stock_data yf now symbol = (Some data, err) ->
  info (yf (strip (upper symbol))) = Ok i ->
  history (yf (strip (upper symbol))) "2d" = Ok h ->
  exists current_price high low volume,
    data !! "current_price" = Some current_price /\
    data !! "high" = Some high /\ taken_from h "High" current_price high /\
    data !! "low" = Some low /\ taken_from h "Low" current_price low /\
    data !! "volume" = Some volume /\
    match override i "volume" with
    | Some v => volume = v
    | None => taken_from h "Volume" (VInt 0) volume
    end.
Proof.
  intros Hg Hi Hh. apply get_stock_data_Some in Hg as [_ Hb].
  apply stock_data_body_Some in Hb as (i' & h' & close & cur & prev & Hi' & Hh' & Hn & _ & _ & _ & ->).
  rewrite Hi in Hi'. injection Hi' as <-. rewrite Hh in Hh'. injection Hh' as <-.
  exists (value_of_cell cur), (last_or_default h "High" (value_of_cell cur)),
    (last_or_default h "Low" (value_of_cell cur)),
    (default (last_or_default h "Volume" (VInt 0)) (override i "volume")).
  split; [by fetched_key|]. split; [by fetched_key|].
  split; [by apply last_or_default_taken_from|]. split; [by fetched_key|].
  split; [by apply last_or_default_taken_from|].
  split.
  - fetched_key. by destruct (override i "volume").
  - destruct (override i "volume"); [done|]. by apply last_or_default_taken_from.
Qed.

Lemma get_stock_data_volume_high_low_witness :
  exists current_price high low volume,
    Sample.fetched_apple !! "current_price" = Some current_price /\
    Sample.fetched_apple !! "high" = Some high /\
    taken_from Sample.two_rows "High" current_price high /\
    Sample.fetched_apple !! "low" = Some low /\
    taken_from Sample.two_rows "Low" current_price low /\
    Sample.fetched_apple !! "volume" = Some volume /\
    match override Sample.apple "volume" with
    | Some v => volume = v
    | None => taken_from Sample.two_rows "Volume" (VInt 0) volume
    end.
Proof.
  apply (get_stock_data_volume_high_low (Sample.serve Sample.apple Sample.two_rows)
           Sample.clock "aapl" Sample.fetched_apple [] Sample.apple Sample.two_rows);
    [apply get_stock_data_fetched; vm_compute; reflexivity | reflexivity | reflexivity].
Defined.

(** C9 as stated fails for the volume field: the window has no [Volume]
    column, yet the record's volume is the metadata's, not 0. *)
Lemma get_stock_data_volume_overridden :
  columns (Sample.one_row (CFloat (float_of_Z 100))) !! "Volume" = None /\
  (get_stock_data
     (Sample.serve {[ "volume" := VInt 42 ]} (Sample.one_row (CFloat (float_of_Z 100))))
     Sample.clock "aapl").1 ≫= (fun data => data !! "volume") = Some (VInt 42).
Proof. split; vm_compute; reflexivity. Qed.

(** * binary64 facts *)

Lemma iter_pos_shr_m n : forall mrs,
  0 <= shr_m mrs -> shr_m (SpecFloat.iter_pos shr_1 n mrs) = Z.shiftr (shr_m mrs) (Zpos n).
Proof.
  assert (H1 : forall mrs, 0 <= shr_m mrs -> shr_m (shr_1 mrs) = Z.div2 (shr_m mrs)).
  { intros [m r s] Hm; simpl in *. destruct m as [|[p|p|]|p]; simpl; try reflexivity; lia. }
  assert (H0 : forall mrs, 0 <= shr_m mrs -> 0 <= shr_m (shr_1 mrs)).
  { intros mrs Hm. rewrite H1 by assumption. apply Z.div2_nonneg. assumption. }
  induction n as [n IH|n IH|]; intros mrs Hm; simpl SpecFloat.iter_pos.
  - assert (Ha : 0 <= shr_m (SpecFloat.iter_pos shr_1 n (shr_1 mrs))).
    { rewrite IH by auto. apply Z.shiftr_nonneg. auto. }
    rewrite IH by assumption. rewrite IH by auto. rewrite H1 by assumption.
    rewrite Z.div2_spec. rewrite !Z.shiftr_shiftr by lia. f_equal. lia.
  - assert (Ha : 0 <= shr_m (SpecFloat.iter_pos shr_1 n mrs)).
    { rewrite IH by auto. apply Z.shiftr_nonneg. auto. }
    rewrite IH by assumption. rewrite IH by auto.
    rewrite !Z.shiftr_shiftr by lia. f_equal. lia.
  - rewrite H1 by assumption. apply Z.div2_spec.
Qed.

Lemma digits2_pos_bounds p :
  2 ^ (Zpos (digits2_pos p) - 1) <= Zpos p < 2 ^ Zpos (digits2_pos p).
Proof.
  induction p as [p IH|p IH|]; simpl digits2_pos.
  - rewrite Pos2Z.inj_succ.
    replace (Z.succ (Zpos (digits2_pos p)) - 1) with (Zpos (digits2_pos p) - 1 + 1) by lia.
    rewrite Z.pow_succ_r by lia. rewrite Z.pow_add_r by lia. lia.
  - rewrite Pos2Z.inj_succ.
    replace (Z.succ (Zpos (digits2_pos p)) - 1) with (Zpos (digits2_pos p) - 1 + 1) by lia.
    rewrite Z.pow_succ_r by lia. rewrite Z.pow_add_r by lia. lia.
  - simpl. lia.
Qed.

Lemma shr_fexp_pos m e l :
  -52 <= e ->
  0 < shr_m (shr_fexp 53 1024 (Zpos m) e l).1 /\ -52 <= (shr_fexp 53 1024 (Zpos m) e l).2.
Proof.
  intros He. unfold shr_fexp, shr, fexp, emin. simpl Zdigits2.
  pose proof (digits2_pos_bounds m) as [Hlo Hhi].
  set (d := Zpos (digits2_pos m)) in *.
  assert (Hd : 1 <= d) by (unfold d; lia).
  replace (Z.max (d + e - 53) (3 - 1024 - 53)) with (d + e - 53) by lia.
  destruct (d + e - 53 - e) as [|n|n] eqn:Hn.
  - simpl. destruct l as [|[]]; simpl; lia.
  - simpl fst; simpl snd. split; [|lia].
    rewrite iter_pos_shr_m by (destruct l as [|[]]; simpl; lia).
    replace (shr_m (shr_record_of_loc (Zpos m) l)) with (Zpos m)
      by (destruct l as [|[]]; reflexivity).
    rewrite Z.shiftr_div_pow2 by lia.
    apply Z.div_str_pos. split; [apply Z.pow_pos_nonneg; lia|].
    eapply Z.le_trans; [|exact Hlo]. apply Z.pow_le_mono_r; lia.
  - simpl. destruct l as [|[]]; simpl; lia.
Qed.

Lemma binary_round_aux_pos s m e l :
  -52 <= e -> finite_or_infinite (binary_round_aux 53 1024 s (Zpos m) e l).
Proof.
  intros He. unfold binary_round_aux.
  pose proof (shr_fexp_pos m e l He) as [H1 H2].
  destruct (shr_fexp 53 1024 (Zpos m) e l) as [mrs' e'] eqn:E1. simpl in H1, H2.
  assert (Hr : 0 < round_nearest_even (shr_m mrs') (loc_of_shr_record mrs')).
  { unfold round_nearest_even. destruct (loc_of_shr_record mrs') as [|[]]; try lia.
    destruct (Z.even (shr_m mrs')); lia. }
  destruct (round_nearest_even (shr_m mrs') (loc_of_shr_record mrs')) as [|m2|m2] eqn:E2;
    try lia.
  pose proof (shr_fexp_pos m2 e' loc_Exact H2) as [H3 H4].
  destruct (shr_fexp 53 1024 (Zpos m2) e' loc_Exact) as [mrs'' e''] eqn:E3.
  simpl in H3, H4.
  destruct (shr_m mrs'') as [|m3|m3]; try lia.
  simpl. destruct (e'' <=? 1024 - 53); exact I.
Qed.

(** A non-zero integer converts to a non-zero number. *)
Lemma float_of_Z_nonzero z : z <> 0 -> finite_or_infinite (float_of_Z z).
Proof.
  intros Hz. unfold float_of_Z, binary_normalize.
  assert (H : forall s p, finite_or_infinite (binary_round 53 1024 s p 0)).
  { intros s p. unfold binary_round.
    destruct (shl_align p 0 (fexp 53 1024 (Zpos (digits2_pos p) + 0))) as [mz ez] eqn:E.
    apply binary_round_aux_pos.
    assert (Hf : -52 <= fexp 53 1024 (Zpos (digits2_pos p) + 0))
      by (unfold fexp, emin; lia).
    revert E Hf. generalize (fexp 53 1024 (Zpos (digits2_pos p) + 0)). intros f E Hf.
    unfold shl_align in E.
    destruct (f - 0) eqn:E'; inversion E; subst; lia. }
  destruct z; [congruence| apply H | apply H].
Qed.

Lemma fsub_diag x : is_finite x = true -> feq (fsub x x) (S754_zero false) = true.
Proof.
  destruct x as [s|s| |s m e]; try discriminate; intros _.
  - by destruct s.
  - unfold fsub, SFsub.
    replace (cond_Zopp s (Zpos (shl_align m e (Z.min e e)).1)
             - cond_Zopp s (Zpos (shl_align m e (Z.min e e)).1)) with 0 by lia.
    reflexivity.
Qed.

Lemma fsub_diag_zero x :
  is_finite x = true -> exists s, fsub x x = S754_zero s.
Proof.
  destruct x as [s|s| |s m e]; try discriminate; intros _.
  - destruct s; eexists; reflexivity.
  - unfold fsub, SFsub.
    replace (cond_Zopp s (Zpos (shl_align m e (Z.min e e)).1)
             - cond_Zopp s (Zpos (shl_align m e (Z.min e e)).1)) with 0 by lia.
    eexists; reflexivity.
Qed.

Lemma zero_percent s y :
  finite_or_infinite y ->
  feq (fmul (fdiv (S754_zero s) y) (float_of_Z 100)) (S754_zero false) = true.
Proof.
  destruct y as [sy|sy| |sy my ey]; intros Hy; try (exfalso; exact Hy);
    destruct s, sy; reflexivity.
Qed.

Lemma is_zero_cell c : is_zero (value_of_cell c) = negb (cell_ne_zero c).
Proof. destruct c; simpl; by rewrite ?negb_involutive. Qed.

(** With one finite close the change and the percentage are zero. *)
Lemma no_change cur :
  finite_cell cur = true ->
  is_zero (value_of_cell (cell_sub cur cur)) = true /\
  is_zero (percent_change (cell_sub cur cur) cur) = true.
Proof.
  intros Hf. destruct cur as [f|z].
  - simpl in Hf. destruct (fsub_diag_zero f Hf) as [s Hs]. split.
    + simpl. by apply fsub_diag.
    + unfold percent_change. destruct (cell_ne_zero (CFloat f)) eqn:Hz; [|done].
      unfold cell_percent, cell_sub. simpl to_float. rewrite Hs.
      change (feq (fmul (fdiv (S754_zero s) f) (float_of_Z 100))
                (S754_zero false) = true).
      apply zero_percent. by destruct f as [[]|sf| |sf m e].
  - split.
    + simpl. by rewrite Z.sub_diag.
    + unfold percent_change. destruct (cell_ne_zero (CInt z)) eqn:Hz; [|done].
      unfold cell_percent, cell_sub. rewrite Z.sub_diag.
      change (feq (fmul (fdiv (S754_zero false) (float_of_Z z)) (float_of_Z 100))
                (S754_zero false) = true).
      apply zero_percent. apply float_of_Z_nonzero.
      simpl in Hz. apply negb_true_iff, Z.eqb_neq in Hz. done.
Qed.

(** * The change fields *)

(** C4 (amended). In a fetched record, with exactly one row the
    previous close is the current price and, when that close is finite
    (neither NaN nor infinite), the change and the percentage change equal 0;
    for every window the percentage change is the integer 0 when the
    previous close equals 0, and the division is evaluated only when the
    previous close differs from 0. *)
Theorem get_stock_data_change yf now symbol data err h :
  get_stock_data yf now symbol = (Some data, err) ->
  history (yf (strip (upper symbol))) "2d" = Ok h ->
  exists cur prev : cell,
    data !! "current_price" = Some (value_of_cell cur) /\
    data !! "previous_close" = Some (value_of_cell prev) /\
    data !! "change" = Some (value_of_cell (cell_sub cur prev)) /\
    data !! "change_percent" = Some (percent_change (cell_sub cur prev) prev) /\
    (nrows h = 1%nat ->
     prev = cur /\
     (finite_cell cur = true ->
      is_zero (value_of_cell (cell_sub cur prev)) = true /\
      is_zero (percent_change (cell_sub cur prev) prev) = true)) /\
    (is_zero (value_of_cell prev) = true ->
     percent_change (cell_sub cur prev) prev = VInt 0) /\
    (is_zero (value_of_cell prev) = false ->
     percent_change (cell_sub cur prev) prev
     = VFloat (fmul (fdiv (to_float (cell_sub cur prev)) (to_float prev)) (float_of_Z 100))).
Proof.
  intros Hg Hh. apply get_stock_data_Some in Hg as [_ Hb].
  apply stock_data_body_Some in Hb
    as (i & h' & close & cur & prev & _ & Hh' & Hn & _ & _ & Hprev & ->).
  rewrite Hh in Hh'. injection Hh' as <-.
  exists cur, prev.
  split; [by fetched_key|]. split; [by fetched_key|].
  split; [by fetched_key|]. split; [by fetched_key|].
  split; [|split].
  - intros H1.
    assert ((1 <? nrows h)%nat = false) as E by (apply Nat.ltb_ge; lia).
    rewrite E in Hprev. subst prev.
    split; [done|]. apply no_change.
  - rewrite is_zero_cell. intros Hz. apply negb_true_iff in Hz.
    unfold percent_change. by rewrite Hz.
  - rewrite is_zero_cell. intros Hz. apply negb_false_iff in Hz.
    unfold percent_change. by rewrite Hz.
Qed.

Lemma get_stock_data_change_witness :
  (nrows Sample.single = 1%nat /\
   Sample.fetched_single !! "previous_close" = Sample.fetched_single !! "current_price" /\
   exists change change_percent,
     Sample.fetched_single !! "change" = Some change /\ is_zero change = true /\
     Sample.fetched_single !! "change_percent" = Some change_percent /\
     is_zero change_percent = true) /\
  (Sample.fetched_from_zero !! "previous_close" = Some (VFloat (S754_zero false)) /\
   Sample.fetched_from_zero !! "change_percent" = Some (VInt 0)).
Proof.
  split.
  - destruct (get_stock_data_change (Sample.serve ∅ Sample.single) Sample.clock "aapl"
                Sample.fetched_single [] Sample.single)
      as (cur & prev & Hcur & Hprev & Hchg & Hpct & Hone & _ & _);
      [apply get_stock_data_fetched; vm_compute; reflexivity | reflexivity |].
    destruct (Hone eq_refl) as [-> Hzero].
    assert (Hc : Sample.fetched_single !! "current_price"
                 = Some (VFloat (float_of_Z 100))) by (vm_compute; reflexivity).
    rewrite Hcur in Hc. injection Hc as Hc.
    assert (Hfin : finite_cell cur = true).
    { destruct cur as [f|z]; [|done]. injection Hc as ->. reflexivity. }
    destruct (Hzero Hfin) as [Hz1 Hz2].
    split; [reflexivity|]. split; [by rewrite Hprev, Hcur|]. eauto 10.
  - destruct (get_stock_data_change (Sample.serve ∅ Sample.from_zero) Sample.clock "aapl"
                Sample.fetched_from_zero [] Sample.from_zero)
      as (cur & prev & Hcur & Hprev & Hchg & Hpct & _ & Hzero & _);
      [apply get_stock_data_fetched; vm_compute; reflexivity | reflexivity |].
    assert (Hp : Sample.fetched_from_zero !! "previous_close"
                 = Some (VFloat (S754_zero false))) by (vm_compute; reflexivity).
    split; [exact Hp|].
    rewrite Hprev in Hp. injection Hp as Hp.
    rewrite Hpct, Hzero; [done|]. by rewrite Hp.
Defined.

(** C4 as stated fails: with the single close not a number, the change
    and the percentage change are not a number either, not 0. *)
Lemma get_stock_data_change_nan :
  nrows (Sample.one_row (CFloat S754_nan)) = 1%nat /\
  (get_stock_data (Sample.serve ∅ (Sample.one_row (CFloat S754_nan))) Sample.clock "aapl").1
    ≫= (fun data => data !! "change") = Some (VFloat S754_nan) /\
  (get_stock_data (Sample.serve ∅ (Sample.one_row (CFloat S754_nan))) Sample.clock "aapl").1
    ≫= (fun data => data !! "change_percent") = Some (VFloat S754_nan) /\
  is_zero (VFloat S754_nan) = false.
Proof. repeat apply conj; vm_compute; reflexivity. Qed.

(** * JSON output *)

Lemma fetched_has_timestamp yf now symbol data err :
  get_stock_data yf now symbol = (Some data, err) ->
  data !! "timestamp" = Some (VStr now).
Proof.
  intros Hg. apply get_stock_data_Some in Hg as [_ Hb].
  apply stock_data_body_Some in Hb
    as (i & h' & close & cur & prev & _ & _ & _ & _ & _ & _ & ->).
  by fetched_key.
Qed.

Lemma lookup_size_pos (d : gmap string value) k v :
  d !! k = Some v -> (size d =? 0)%nat = false.
Proof.
  intros H. apply Nat.eqb_neq. intros Hs. apply map_size_empty_iff in Hs.
  subst d. by rewrite lookup_empty in H.
Qed.

(** The JSON branch on a store holding the record at [data]: the copy
    is allocated at a new location, the key is deleted in the copy, and
    the copy is handed to the serialiser. *)
Lemma json_output_spec w (σ : gmap loc (gmap string value)) data record ts :
  σ !! data = Some record ->
  record !! "timestamp" = Some ts ->
  (dict_copy σ data).1 <> data /\
  σ !! (dict_copy σ data).1 = None /\
  json_output w σ data
  = RunResult (<[(dict_copy σ data).1 := delete "timestamp" record]> σ)
      (JsonDumps (delete "timestamp" record)
         :: match json_dumps w (delete "timestamp" record) with
            | Ok text => [Stdout text]
            | Raise _ => []
            end)
      match json_dumps w (delete "timestamp" record) with
      | Ok _ => Returned
      | Raise e => Uncaught e
      end.
Proof.
  intros Hd Hts. unfold json_output, dict_copy, alloc. rewrite Hd.
  cbn [default from_option fst]. cbv beta delta [id].
  set (l := fresh (dom σ)).
  assert (Hl : σ !! l = None).
  { apply not_elem_of_dom. apply is_fresh. }
  split; [intros E; rewrite E in Hl; congruence|]. split; [done|].
  unfold dict_del. rewrite lookup_insert_eq. cbv beta iota delta [id]. rewrite Hts.
  rewrite lookup_insert_eq. cbn [default from_option]. cbv beta delta [id].
  rewrite insert_insert_eq.
  by destruct (json_dumps w (delete "timestamp" record)).
Qed.

(** C8. In JSON mode, for every fetched record: [data.copy()] makes a
    new object, at a location other than that of the record; the
    [timestamp] key is deleted in the copy; the copy, which has no
    [timestamp] key and the record's value under every other key, is what
    the serialiser is given, once; and the object of the fetched record,
    at its own location, is unchanged. The run prints the serialiser's
    text and returns, or ends with the serialiser's exception. *)
Theorem run_json_output self w a symbol record err :
  arg_list_fields a = false ->
  arg_symbol a = Some symbol ->
  symbol <> "" ->
  arg_chart a = false ->
  arg_json a = true ->
  get_stock_data (yf w) (now w) symbol = (Some record, err) ->
  let data := (alloc ∅ record).1 in
  let σ := (alloc ∅ record).2 in
  let json_data := (dict_copy σ data).1 in
  let obj := delete "timestamp" record in
  σ !! data = Some record /\
  json_data <> data /\ σ !! json_data = None /\
  final_store (run self w a) = <[json_data := obj]> σ /\
  final_store (run self w a) !! data = Some record /\
  final_store (run self w a) !! json_data = Some obj /\
  events (run self w a)
  = JsonDumps obj :: match json_dumps w obj with
                     | Ok text => [Stdout text]
                     | Raise _ => []
                     end /\
  final_status (run self w a)
  = match json_dumps w obj with
    | Ok _ => Returned
    | Raise e => Uncaught e
    end /\
  obj !! "timestamp" = None /\
  (forall k, k <> "timestamp" -> obj !! k = record !! k).
Proof.
  intros Hl Hs Hne Hc Hj Hg.
  pose proof (fetched_has_timestamp _ _ _ _ _ Hg) as Hts.
  apply get_stock_data_Some in Hg as Hg'. destruct Hg' as [-> _].
  cbv zeta. unfold run. rewrite Hl, Hs, Hc, Hg.
  destruct symbol as [|c symbol]; [done|].
  rewrite (lookup_size_pos _ _ _ Hts), Hj.
  unfold alloc. cbn [fst snd].
  set (l := fresh (dom (∅ : gmap loc (gmap string value)))).
  set (σ := <[l := record]> (∅ : gmap loc (gmap string value))).
  assert (Hd : σ !! l = Some record) by apply lookup_insert_eq.
  destruct (json_output_spec w σ l record (VStr (now w)) Hd Hts) as (Hne' & Hfresh & ->).
  unfold before. cbn [final_store events final_status map app].
  repeat apply conj; try done.
  - apply lookup_delete_eq.
  - intros k Hk. by apply lookup_delete_ne.
Qed.

Lemma run_json_output_witness :
  final_status (run Sample.plain (Sample.world Sample.quoted Sample.two_rows)
                  Sample.json_args) = Returned /\
  events (run Sample.plain (Sample.world Sample.quoted Sample.two_rows) Sample.json_args)
  = [JsonDumps (delete "timestamp" Sample.fetched_quoted); Stdout "{...}"] /\
  final_store (run Sample.plain (Sample.world Sample.quoted Sample.two_rows)
                 Sample.json_args) !! (alloc ∅ Sample.fetched_quoted).1
  = Some Sample.fetched_quoted /\
  Sample.fetched_quoted !! "timestamp" = Some (VStr Sample.clock).
Proof.
  destruct (run_json_output Sample.plain (Sample.world Sample.quoted Sample.two_rows)
              Sample.json_args "aapl" Sample.fetched_quoted [])
    as (_ & _ & _ & _ & Hdata & _ & Hev & Hst & _ & _);
    [reflexivity | reflexivity | discriminate | reflexivity | reflexivity
    | apply get_stock_data_fetched; vm_compute; reflexivity |].
  assert (Hd : json_dumps (Sample.world Sample.quoted Sample.two_rows)
                 (delete "timestamp" Sample.fetched_quoted) = Ok "{...}")
    by (vm_compute; reflexivity).
  rewrite Hd in Hev, Hst.
  repeat apply conj; [exact Hst | exact Hev | exact Hdata | vm_compute; reflexivity].
Defined.

(** * Formatter *)

Lemma py_float_fits z : int_fits z = true -> py_float z = Ok (float_of_Z z).
Proof. unfold py_float, int_fits. by intros ->. Qed.

Lemma py_float_bool b : py_float (Z_of_bool b) = Ok (float_of_Z (Z_of_bool b)).
Proof. by destruct b. Qed.

Lemma format_2f_ok plus grouped v :
  numeric v = true -> fits v = true ->
  format_2f plus grouped v = Ok (format_fixed2 plus grouped (as_float v)).
Proof.
  destruct v as [|b|z|z|f|s|l|d]; try done; intros _ Hf; cbn [format_2f as_float].
  - by rewrite py_float_bool.
  - by rewrite py_float_fits.
Qed.

Lemma ge_float_ok v t : numeric v = true -> ge_float v t = Ok (at_least v t).
Proof. unfold at_least. by destruct v. Qed.

Lemma truediv_ok v t :
  numeric v = true -> fits v = true -> truediv v t = Ok (fdiv (as_float v) t).
Proof.
  destruct v as [|b|z|z|f|s|l|d]; try done; intros _ Hf; cbn [truediv as_float].
  - by rewrite py_float_bool.
  - by rewrite py_float_fits.
Qed.

Lemma format_large_number_chain v :
  numeric v = true -> fits v = true ->
  format_large_number v = Ok (large_number_chain v).
Proof.
  intros Hn Hf. unfold format_large_number, large_number_chain.
  rewrite !ge_float_ok, !truediv_ok, format_2f_ok by done.
  cbv beta iota delta [mbind result_bind].
  by repeat destruct (at_least v _).
Qed.

Lemma units_descending :
  fle BILLION TRILLION = true /\ fle MILLION BILLION = true /\
  fle THOUSAND MILLION = true /\ fle TRILLION BILLION = false /\
  fle BILLION MILLION = false /\ fle MILLION THOUSAND = false /\
  fle TRILLION MILLION = false /\ fle TRILLION THOUSAND = false /\
  fle BILLION THOUSAND = false.
Proof. repeat apply conj; vm_compute; reflexivity. Qed.

Lemma large_number_chain_text v : large_number_chain v = large_number_text v.
Proof.
  unfold large_number_chain, large_number_text, units, applies.
  destruct units_descending as (H1 & H2 & H3 & H4 & H5 & H6 & H7 & H8 & H9).
  cbn [List.filter fst snd].
  destruct (at_least v TRILLION), (at_least v BILLION), (at_least v MILLION),
    (at_least v THOUSAND);
    cbn [largest foldr fst snd]; rewrite ?H1, ?H2, ?H3, ?H4, ?H5, ?H6, ?H7, ?H8, ?H9;
    reflexivity.
Qed.

(** C3 (amended). For every number that is a float, a bool, a numpy
    integer or a Python int within the float range, [format_large_number]
    scales by the largest applicable unit, the thresholds being inclusive
    and tried largest first: at least 10^12 gives the value divided by 10^12
    at 2 decimals with suffix T, else at least 10^9 suffix B, else at least
    10^6 suffix M, else at least 10^3 suffix K, else the grouped 2-decimal
    amount. *)
Theorem format_large_number_thresholds v :
  numeric v = true -> fits v = true ->
  format_large_number v = Ok (large_number_text v) /\
  format_large_number v = Ok (large_number_chain v).
Proof.
  intros Hn Hf. rewrite <- large_number_chain_text.
  split; by apply format_large_number_chain.
Qed.

Lemma format_large_number_thresholds_witness :
  format_large_number (VFloat (float_of_Z (15 * 10 ^ 11))) = Ok "$1.50T" /\
  format_large_number (VFloat (float_of_Z (23 * 10 ^ 8))) = Ok "$2.30B" /\
  format_large_number (VInt 2500000) = Ok "$2.50M" /\
  format_large_number (VInt 1500) = Ok "$1.50K" /\
  format_large_number (VInt 1000) = Ok "$1.00K" /\
  format_large_number (VInt 999) = Ok "$999.00" /\
  format_large_number (VFloat (float_of_Z (-5000000))) = Ok "$-5,000,000.00" /\
  format_large_number (VFloat S754_nan) = Ok "$nan".
Proof.
  repeat apply conj;
    match goal with
    | |- format_large_number ?v = _ =>
        rewrite (proj2 (format_large_number_thresholds v eq_refl eq_refl))
    end; vm_compute; reflexivity.
Defined.

(** C3 as stated fails on a Python int beyond the float range: the first
    threshold applies, and the division raises. *)
Lemma format_large_number_overflow :
  numeric (VInt Sample.huge) = true /\
  ge_float (VInt Sample.huge) TRILLION = Ok true /\
  format_large_number (VInt Sample.huge) = Raise overflow_error.
Proof. repeat apply conj; vm_compute; reflexivity. Qed.

(** ** Texts without a capital N *)



















Lemma format_field_value_none k : format_field_value k VNone = Ok "N/A".
Proof. reflexivity. Qed.

(** A value that is neither None nor an instance of int or float is
    passed through [str], whatever the key. *)
Lemma format_field_value_other k v :
  is_none v = false -> is_int_or_float v = false ->
  format_field_value k v = Ok (str v).
Proof.
  intros Hn Hi. unfold format_field_value. rewrite Hn, Hi.
  by repeat destruct (mem k _).
Qed.





(** * Presenter *)

Lemma seq_lines l (b : out) : (l, None) >> b = (app l b.1, b.2).
Proof. reflexivity. Qed.

Lemma seq_raise l e (b : out) : (l, Some e) >> b = (l, Some e).
Proof. reflexivity. Qed.

Lemma seq_skip_l (b : out) : skip >> b = b.
Proof. by destruct b. Qed.

Lemma seq_skip_r (a : out) : a >> skip = a.
Proof. destruct a as [l [e|]]; [done|]. unfold seq, skip. cbn. by rewrite app_nil_r. Qed.

Lemma seq_assoc (a b c : out) : (a >> b) >> c = a >> (b >> c).
Proof.
  destruct a as [la [ea|]]; [done|]. destruct b as [lb [eb|]]; [done|].
  destruct c as [lc ec]. unfold seq. cbn. by rewrite app_assoc.
Qed.

(** The formatter does not raise on a formattable value. *)
Lemma format_field_value_ok k v :
  formattable v = true -> exists text, format_field_value k v = Ok text.
Proof.
  intros Hf. destruct (is_none v) eqn:Hv; [destruct v; try done; by eexists|].
  destruct (is_int_or_float v) eqn:Hi.
  - assert (Hn : numeric v = true) by (by destruct v).
    assert (Hfit : fits v = true).
    { destruct v; try done. simpl in *. by apply andb_true_iff in Hf as [? _]. }
    assert (Hh : fits (hundredfold v) = true).
    { destruct v as [|[]| | | | | |]; try done. simpl in *. by apply andb_true_iff in Hf as [_ ?]. }
    unfold format_field_value. rewrite Hv, Hi.
    destruct (mem k ratio_fraction_fields).
    { replace (mul100 v) with (Ok (hundredfold v)) by (by destruct v).
      cbn [mbind result_bind]. rewrite format_2f_ok; [by eexists| by destruct v | done]. }
    destruct (mem k large_currency_fields).
    { rewrite format_large_number_chain by done. by eexists. }
    destruct (mem k plain_ratio_fields).
    { rewrite format_2f_ok by done. by eexists. }
    destruct (mem k count_fields); [|by eexists].
    destruct v; try done; by eexists.
  - unfold format_field_value. rewrite Hv, Hi.
    repeat destruct (mem k _); by eexists.
Qed.

(** *** When the formatter raises *)

Lemma py_float_overflow z : int_fits z = false -> py_float z = Raise overflow_error.
Proof. unfold py_float, int_fits. by intros ->. Qed.

Lemma format_2f_overflow plus grouped z :
  int_fits z = false -> format_2f plus grouped (VInt z) = Raise overflow_error.
Proof. intros H. cbn [format_2f]. by rewrite py_float_overflow. Qed.

Lemma format_large_number_int_overflow z :
  int_fits z = false -> format_large_number (VInt z) = Raise overflow_error.
Proof.
  intros H. unfold format_large_number. cbn [ge_float truediv format_2f].
  rewrite py_float_overflow by done. cbv beta iota delta [mbind result_bind].
  by repeat destruct (int_ge_float z _).
Qed.

(** The formatter raises exactly on a value that overflows under the
    key, and raises OverflowError then. *)
Lemma format_field_value_raised k v :
  raised (format_field_value k v)
  = if overflows k v then Some overflow_error else None.
Proof.
  destruct v as [|b|z|z|f|s|l|d];
    try (by rewrite format_field_value_other); try done.
  - destruct (format_field_value_ok k (VBool b) eq_refl) as [t ->]. done.
  - unfold format_field_value, overflows. cbn [is_none is_int_or_float mul100].
    destruct (mem k ratio_fraction_fields).
    { cbn [mbind result_bind]. destruct (int_fits (z * 100)) eqn:E.
      - by rewrite (format_2f_ok _ _ (VInt (z * 100))).
      - by rewrite format_2f_overflow. }
    destruct (mem k large_currency_fields).
    { cbn [orb]. destruct (int_fits z) eqn:E.
      - by rewrite (format_large_number_chain (VInt z)).
      - by rewrite format_large_number_int_overflow. }
    destruct (mem k plain_ratio_fields).
    { cbn [orb]. destruct (int_fits z) eqn:E.
      - by rewrite (format_2f_ok _ _ (VInt z)).
      - by rewrite format_2f_overflow. }
    cbn [orb]. by destruct (mem k count_fields).
  - destruct (format_field_value_ok k (VFloat f) eq_refl) as [t ->]. done.
Qed.

Lemma format_field_value_overflow k v :
  overflows k v = true -> format_field_value k v = Raise overflow_error.
Proof.
  intros H. pose proof (format_field_value_raised k v) as R. rewrite H in R.
  destruct (format_field_value k v); [done|]. by injection R as ->.
Qed.

Lemma format_field_value_no_overflow k v :
  overflows k v = false -> is_ok (format_field_value k v) = true.
Proof.
  intros H. pose proof (format_field_value_raised k v) as R. rewrite H in R.
  by destruct (format_field_value k v).
Qed.


Lemma is_ok_text {A} (r : result A) : is_ok r = true -> exists a, r = Ok a.
Proof. destruct r; [by eexists|done]. Qed.

(** ** Specific fields *)

Lemma specific_field_line data k :
  (is_Some (all_fields !! k) ->
   is_ok (format_field_value k (dict_get data k)) = true) ->
  specific_field data k = print (requested_line data k).
Proof.
  intros Hf. unfold specific_field, requested_line.
  destruct (all_fields !! k) as [label|]; [|done].
  destruct (is_ok_text (format_field_value k (dict_get data k))) as [text ->];
    [by apply Hf|].
  done.
Qed.

Lemma specific_field_overflow data k :
  is_Some (all_fields !! k) -> overflows k (dict_get data k) = true ->
  specific_field data k = ([], Some overflow_error).
Proof.
  intros [label Hl] Ho. unfold specific_field. rewrite Hl.
  by rewrite format_field_value_overflow.
Qed.

Lemma specific_fields_loop data fields :
  (forall k, k ∈ fields -> is_Some (all_fields !! k) ->
        is_ok (format_field_value k (dict_get data k)) = true) ->
  foldr (fun field rest => specific_field data field >> rest) skip fields
  = (map (requested_line data) fields, None).
Proof.
  induction fields as [|k fields IH]; intros Hf; [done|].
  cbn [foldr map]. rewrite IH.
  - rewrite specific_field_line; [done|]. apply Hf. by left.
  - intros k' Hk'. apply Hf. by right.
Qed.

Lemma specific_fields_loop_overflow data fields :
  (exists k, k ∈ fields /\ is_Some (all_fields !! k) /\
             overflows k (dict_get data k) = true) ->
  (foldr (fun field rest => specific_field data field >> rest) skip fields).2
  = Some overflow_error.
Proof.
  induction fields as [|k0 fields IH]; intros (k & Hk & Hl & Ho);
    [by apply elem_of_nil in Hk|].
  cbn [foldr].
  destruct (decide (is_Some (all_fields !! k0))) as [Hl0|Hl0].
  - destruct (overflows k0 (dict_get data k0)) eqn:Ho0.
    + by rewrite specific_field_overflow.
    + rewrite specific_field_line by (intros _; by apply format_field_value_no_overflow).
      unfold print. rewrite seq_lines. cbn [snd]. apply IH.
      apply elem_of_cons in Hk as [->|Hk]; [congruence|]. by exists k.
  - rewrite specific_field_line by done.
    unfold print. rewrite seq_lines. cbn [snd]. apply IH.
    apply elem_of_cons in Hk as [->|Hk]; [done|]. by exists k.
Qed.

(** C6 (amended). When no requested catalog key holds a Python int that
    the formatting rule of the key cannot convert to a float, the
    [--fields] presenter prints, after its heading, one line per
    requested key in the order requested: the label and the formatted
    value for a catalog key (the label and "N/A" when the record lacks
    the key), the key and "Field not available" otherwise. When a
    requested catalog key holds such an int, the presenter raises
    OverflowError. *)
Theorem display_specific_fields_lines self data fields :
  ((forall k, k ∈ fields -> is_Some (all_fields !! k) ->
         overflows k (dict_get data k) = false) ->
   _display_specific_fields self data fields
   = ((nl ++ colorize self "Requested Fields:" "bold")
        :: map (requested_line data) fields, None) /\
   (forall k label, k ∈ fields -> all_fields !! k = Some label ->
      exists text, format_field_value k (dict_get data k) = Ok text /\
                   requested_line data k = "  " ++ label ++ ": " ++ text)) /\
  ((exists k, k ∈ fields /\ is_Some (all_fields !! k) /\
              overflows k (dict_get data k) = true) ->
   (_display_specific_fields self data fields).2 = Some overflow_error) /\
  (forall k label, all_fields !! k = Some label -> data !! k = None ->
     requested_line data k = "  " ++ label ++ ": N/A") /\
  (forall k, all_fields !! k = None ->
     requested_line data k = "  " ++ k ++ ": Field not available").
Proof.
  split; [|split; [|split]].
  - intros Hf. split.
    + unfold _display_specific_fields. rewrite specific_fields_loop; [done|].
      intros k Hk Hl. by apply format_field_value_no_overflow, Hf.
    + intros k label Hk Hl.
      destruct (is_ok_text (format_field_value k (dict_get data k))) as [text Ht].
      { apply format_field_value_no_overflow, Hf; [done|]. by rewrite Hl. }
      exists text. split; [done|]. unfold requested_line. by rewrite Hl, Ht.
  - intros H. unfold _display_specific_fields, print. rewrite seq_lines. cbn [snd].
    by apply specific_fields_loop_overflow.
  - intros k label Hl Hd. unfold requested_line, dict_get. by rewrite Hl, Hd.
  - intros k Hl. unfold requested_line. by rewrite Hl.
Qed.

Lemma display_specific_fields_lines_witness :
  _display_specific_fields Sample.plain Sample.fetched_apple
    ["marketCap"; "bogusField"; "dividendYield"]
  = ([nl ++ "Requested Fields:"; "  Market Cap: $3.00T";
      "  bogusField: Field not available"; "  Dividend Yield: N/A"], None) /\
  (_display_specific_fields Sample.plain {[ "marketCap" := VInt Sample.near_top ]}
     ["marketCap"]).2
  = None /\
  (_display_specific_fields Sample.plain {[ "dividendYield" := VInt Sample.near_top ]}
     ["dividendYield"]).2
  = Some overflow_error.
Proof.
  repeat apply conj.
  - rewrite (proj1 (proj1 (display_specific_fields_lines Sample.plain Sample.fetched_apple
                             ["marketCap"; "bogusField"; "dividendYield"])
                      ltac:(intros k Hk _; apply list_elem_of_In in Hk; simpl in Hk;
                            destruct Hk as [<-|[<-|[<-|[]]]]; vm_compute; reflexivity))).
    vm_compute. reflexivity.
  - exact (f_equal snd
             (proj1 (proj1 (display_specific_fields_lines Sample.plain
                              {[ "marketCap" := VInt Sample.near_top ]} ["marketCap"])
                       ltac:(intros k Hk _; apply list_elem_of_In in Hk; simpl in Hk;
                             destruct Hk as [<-|[]]; vm_compute; reflexivity)))).
  - apply (proj1 (proj2 (display_specific_fields_lines Sample.plain
                           {[ "dividendYield" := VInt Sample.near_top ]}
                           ["dividendYield"]))).
    exists "dividendYield". repeat apply conj;
      [apply list_elem_of_In; simpl; tauto | vm_compute; eauto | vm_compute; reflexivity].
Defined.

(** C6 as stated fails: a requested catalog key holds a Python int beyond
    the float range; formatting it raises, and no line is printed for this
    key nor for the next. *)
Lemma display_specific_fields_overflow :
  _display_specific_fields Sample.plain {[ "marketCap" := VInt Sample.huge ]}
    ["marketCap"; "bogusField"]
  = ([nl ++ "Requested Fields:"], Some overflow_error).
Proof. vm_compute. reflexivity. Qed.

(** ** All fields *)

Lemma category_data_ok data fields :
  (forall kv v, kv ∈ fields -> data !! kv.1 = Some v ->
                is_ok (format_field_value kv.1 v) = true) ->
  category_data data fields
  = Ok (map (category_row data)
          (List.filter (fun kv : string * string => present data kv.1) fields)).
Proof.
  induction fields as [|[k label] fields IH]; intros Hf; [done|].
  cbn [category_data List.filter]. unfold present at 1. cbn [fst].
  rewrite IH by (intros kv v Hkv; apply Hf; by right).
  destruct (data !! k) as [v|] eqn:Ek; [|done].
  destruct (is_none v) eqn:Ev; [done|]. cbn [negb map].
  destruct (is_ok_text (format_field_value k v)) as [text Ht].
  { apply (Hf (k, label)); [by left|done]. }
  cbv beta iota delta [mbind result_bind]. rewrite Ht.
  unfold category_row at 2, dict_get. cbn [fst snd].
  rewrite Ek. cbn [default from_option]. cbv beta delta [id]. by rewrite Ht.
Qed.

(** The inner loop raises nothing but the formatter's OverflowError, and
    raises it when a field of the category overflows. *)
Lemma category_data_raise data fields e :
  category_data data fields = Raise e -> e = overflow_error.
Proof.
  induction fields as [|[k label] fields IH]; [done|]. cbn [category_data].
  destruct (data !! k) as [v|]; [|done].
  destruct (is_none v); [done|].
  pose proof (format_field_value_raised k v) as R.
  destruct (format_field_value k v) as [text|e']; cbn [mbind result_bind].
  - destruct (category_data data fields) as [more|e'']; [done|].
    cbn [mbind result_bind]. intros [= <-]. by apply IH.
  - intros [= <-]. cbn [raised] in R. destruct (overflows k v); congruence.
Qed.

Lemma category_data_overflow data fields :
  (exists kv v, kv ∈ fields /\ data !! kv.1 = Some v /\ overflows kv.1 v = true) ->
  category_data data fields = Raise overflow_error.
Proof.
  induction fields as [|[k label] fields IH]; intros (kv & v & Hkv & Hv & Ho);
    [by apply elem_of_nil in Hkv|].
  cbn [category_data].
  apply elem_of_cons in Hkv as [->|Hkv].
  - cbn [fst] in Hv, Ho. rewrite Hv.
    replace (is_none v) with false by (by destruct v).
    by rewrite format_field_value_overflow.
  - assert (IH' : category_data data fields = Raise overflow_error)
      by (apply IH; by exists kv, v).
    destruct (data !! k) as [v0|]; [|done].
    destruct (is_none v0); [done|].
    pose proof (format_field_value_raised k v0) as R.
    destruct (format_field_value k v0) as [text|e']; cbn [mbind result_bind].
    + by rewrite IH'.
    + cbn [raised] in R. destruct (overflows k v0); congruence.
Qed.

Lemma rows_loop (rows : list (string * string)) :
  foldr (fun row rest => print ("  " ++ row.1 ++ ": " ++ row.2) >> rest) skip rows
  = (map (fun row : string * string => "  " ++ row.1 ++ ": " ++ row.2) rows, None).
Proof. induction rows as [|r rows IH]; [done|]. cbn [foldr map]. by rewrite IH. Qed.

Lemma category_block_lines self data cat :
  (forall kv v, kv ∈ cat.2 -> data !! kv.1 = Some v ->
                is_ok (format_field_value kv.1 v) = true) ->
  category_block self data cat = (category_lines self data cat, None).
Proof.
  intros Hf. unfold category_block, category_lines.
  rewrite category_data_ok by done. cbn [with_result].
  destruct (List.filter (fun kv : string * string => present data kv.1) cat.2)
    as [|kv rows]; [done|].
  rewrite rows_loop. cbn [map category_row fst snd]. unfold print, seq. cbn [fst snd app].
  do 3 f_equal. by rewrite map_map.
Qed.

(** A category either prints its lines or raises OverflowError before
    printing anything. *)
Lemma category_block_cases self data cat :
  (exists lines, category_block self data cat = (lines, None)) \/
  category_block self data cat = ([], Some overflow_error).
Proof.
  unfold category_block.
  destruct (category_data data cat.2) as [rows|e] eqn:E.
  - left. cbn [with_result]. destruct rows as [|r rows]; [by eexists|].
    rewrite rows_loop. unfold print. rewrite seq_lines. by eexists.
  - right. by rewrite (category_data_raise _ _ _ E).
Qed.

Lemma category_block_empty self data cat :
  (forall kv, kv ∈ cat.2 -> present data kv.1 = false) ->
  category_lines self data cat = [] /\ category_block self data cat = skip.
Proof.
  intros Hp.
  assert (Hd : forall fields, (forall kv, kv ∈ fields -> present data kv.1 = false) ->
               List.filter (fun kv : string * string => present data kv.1) fields = []
               /\ category_data data fields = Ok []).
  { induction fields as [|[k label] fields IH]; intros H; [done|].
    destruct IH as [IH1 IH2]; [intros kv Hkv; apply H; by right|].
    pose proof (H (k, label) ltac:(by left)) as Hk.
    cbn [List.filter category_data]. cbn [fst] in Hk |- *. rewrite Hk, IH1, IH2.
    split; [done|]. unfold present in Hk.
    destruct (data !! k) as [v|]; [|done]. by destruct (is_none v). }
  destruct (Hd cat.2 Hp) as [H1 H2].
  unfold category_lines, category_block. by rewrite H1, H2.
Qed.

Lemma categories_loop self data cats :
  (forall cat kv v, cat ∈ cats -> kv ∈ cat.2 -> data !! kv.1 = Some v ->
                    is_ok (format_field_value kv.1 v) = true) ->
  foldr (fun cat rest => category_block self data cat >> rest) skip cats
  = (flat_map (category_lines self data) cats, None).
Proof.
  induction cats as [|cat cats IH]; intros Hf; [done|].
  cbn [foldr flat_map]. rewrite IH by (intros c kv v Hc; apply Hf; by right).
  rewrite category_block_lines; [done|]. intros kv v. apply Hf. by left.
Qed.

Lemma categories_loop_overflow self data cats :
  (exists cat kv v, cat ∈ cats /\ kv ∈ cat.2 /\ data !! kv.1 = Some v /\
                    overflows kv.1 v = true) ->
  (foldr (fun cat rest => category_block self data cat >> rest) skip cats).2
  = Some overflow_error.
Proof.
  induction cats as [|cat0 cats IH]; intros (cat & kv & v & Hc & Hkv & Hv & Ho);
    [by apply elem_of_nil in Hc|].
  cbn [foldr].
  destruct (category_block_cases self data cat0) as [[lines Hb]| ->]; [|done].
  rewrite Hb, seq_lines. cbn [snd]. apply IH.
  apply elem_of_cons in Hc as [->|Hc]; [|by exists cat, kv, v].
  exfalso. unfold category_block in Hb.
  rewrite category_data_overflow in Hb by (by exists kv, v). done.
Qed.

Lemma catalog_key cat (kv : string * string) :
  cat ∈ field_categories -> kv ∈ cat.2 -> kv.1 ∈ all_field_keys.
Proof.
  intros Hc Hkv. unfold all_field_keys. apply list_elem_of_In, in_flat_map.
  exists cat. split; [by apply list_elem_of_In|].
  apply in_map. by apply list_elem_of_In.
Qed.

Lemma catalog_key_inv k :
  k ∈ all_field_keys ->
  exists cat label, cat ∈ field_categories /\ (k, label) ∈ cat.2.
Proof.
  unfold all_field_keys. intros H.
  apply list_elem_of_In, in_flat_map in H as (cat & Hc & Hk).
  apply in_map_iff in Hk as ([k' label] & <- & Hk).
  exists cat, label. by rewrite !list_elem_of_In.
Qed.


Lemma catalog_overflows_false data k v :
  catalog_overflows data = false ->
  k ∈ all_field_keys -> data !! k = Some v -> overflows k v = false.
Proof.
  unfold catalog_overflows. intros H Hk Hv.
  destruct (overflows k v) eqn:E; [|done].
  rewrite <- H. symmetry. apply existsb_exists. exists k.
  split; [by apply list_elem_of_In|]. unfold dict_get. by rewrite Hv.
Qed.

Lemma catalog_overflows_true data :
  catalog_overflows data = true ->
  exists k v, k ∈ all_field_keys /\ data !! k = Some v /\ overflows k v = true.
Proof.
  unfold catalog_overflows. intros (k & Hk & Ho)%existsb_exists.
  unfold dict_get in Ho. destruct (data !! k) as [v|] eqn:E; [|done].
  exists k, v. by rewrite list_elem_of_In.
Qed.

(** C7 (amended). When no catalog field of the record holds a Python int
    that the formatting rule of its key cannot convert to a float, the
    [--all] presenter goes through the categories in catalog order and
    prints, for each category with a field present and not null in the
    record, its heading and exactly those fields in catalog order; when
    a catalog field holds such an int, the presenter raises
    OverflowError. A category without a field present and not null
    prints nothing, whatever the record. *)
Theorem display_all_fields_lines self data :
  (catalog_overflows data = false ->
   _display_all_fields self data = (all_fields_lines self data, None)) /\
  (catalog_overflows data = true ->
   (_display_all_fields self data).2 = Some overflow_error) /\
  (forall cat, cat ∈ field_categories ->
     (forall kv, kv ∈ cat.2 -> present data kv.1 = false) ->
     category_lines self data cat = [] /\ category_block self data cat = skip).
Proof.
  split; [|split].
  - intros Hf. unfold _display_all_fields, all_fields_lines. apply categories_loop.
    intros cat kv v Hc Hkv Hv. apply format_field_value_no_overflow.
    apply (catalog_overflows_false data); [done| |done]. by eapply catalog_key.
  - intros Hf. apply catalog_overflows_true in Hf as (k & v & Hk & Hv & Ho).
    unfold _display_all_fields. apply categories_loop_overflow.
    destruct (catalog_key_inv k Hk) as (cat & label & Hc & Hkl).
    by exists cat, (k, label), v.
  - intros cat _. apply category_block_empty.
Qed.

Lemma display_all_fields_lines_witness :
  _display_all_fields Sample.plain Sample.fetched_apple
  = ([ nl ++ "Basic Info:"; "  Company Name: Apple Inc."; "  Symbol: AAPL";
       nl ++ "Price & Volume:"; "  Volume: 1234567";
       nl ++ "Market Metrics:"; "  Market Cap: $3.00T";
       nl ++ "Valuation Ratios:"; "  P/E Ratio (TTM): 12.50" ], None) /\
  (_display_all_fields Sample.plain {[ "marketCap" := VInt Sample.near_top ]}).2
  = None /\
  (_display_all_fields Sample.plain {[ "dividendYield" := VInt Sample.near_top ]}).2
  = Some overflow_error.
Proof.
  repeat apply conj.
  - rewrite (proj1 (display_all_fields_lines Sample.plain Sample.fetched_apple)
               ltac:(vm_compute; reflexivity)).
    vm_compute. reflexivity.
  - assert (H : catalog_overflows {[ "marketCap" := VInt Sample.near_top ]} = false)
      by (vm_compute; reflexivity).
    exact (f_equal snd (proj1 (display_all_fields_lines Sample.plain _) H)).
  - assert (H : catalog_overflows {[ "dividendYield" := VInt Sample.near_top ]} = true)
      by (vm_compute; reflexivity).
    exact (proj1 (proj2 (display_all_fields_lines Sample.plain _)) H).
Defined.

(** C7 as stated fails: the fetched record has a market capitalisation
    beyond the float range; formatting it raises, and the P/E ratio, present
    in the record, is not printed. *)
Lemma display_all_fields_overflow :
  present Sample.fetched_absurd "trailingPE" = true /\
  _display_all_fields Sample.plain Sample.fetched_absurd
  = ([ nl ++ "Basic Info:"; "  Company Name: Apple Inc."; "  Symbol: AAPL";
       nl ++ "Price & Volume:"; "  Volume: 1234567" ], Some overflow_error).
Proof. split; vm_compute; reflexivity. Qed.

(** ** The sections of [display_stock_info] on a fetched record *)

Lemma format_currency_cell self c :
  exists s, format_currency self (value_of_cell c) = Ok s.
Proof.
  unfold format_currency. destruct (locale_currency self _); [by eexists|].
  destruct c; by eexists.
Qed.

Lemma ge_zero_cell c : exists b, ge_zero (value_of_cell c) = Ok b.
Proof. destruct c; by eexists. Qed.

Lemma format_percentage_change chg prev :
  exists s, format_percentage (percent_change chg prev) = Ok s.
Proof.
  unfold percent_change, format_percentage. destruct (cell_ne_zero prev); by eexists.
Qed.

(** The fields of a fetched record that the header, the price section and
    the footer read. *)
Lemma fetched_headline_fields yf now symbol data err :
  get_stock_data yf now symbol = (Some data, err) ->
  exists (name sym : value) (cur prev : cell),
    data !! "name" = Some name /\ data !! "symbol" = Some sym /\
    data !! "change" = Some (value_of_cell (cell_sub cur prev)) /\
    data !! "current_price" = Some (value_of_cell cur) /\
    data !! "change_percent" = Some (percent_change (cell_sub cur prev) prev) /\
    data !! "previous_close" = Some (value_of_cell prev) /\
    data !! "timestamp" = Some (VStr now).
Proof.
  intros Hg. apply get_stock_data_Some in Hg as [_ Hb].
  apply stock_data_body_Some in Hb
    as (i & h & close & cur & prev & _ & _ & _ & _ & _ & _ & ->).
  exists (name_of i (strip (upper symbol))),
    (default (VStr (strip (upper symbol))) (override i "symbol")), cur, prev.
  repeat apply conj; try by fetched_key.
  fetched_key. by destruct (override i "symbol").
Qed.

Lemma selected_block_additional_info self data detailed specific_fields show_all :
  additional_info self data detailed specific_fields show_all
  = selected_block self data detailed specific_fields show_all.
Proof.
  unfold additional_info, selected_block.
  by destruct detailed, (truthy specific_fields), show_all.
Qed.

(** X29. For a fetched record, [display_stock_info] prints the six
    texts of the header and price section whatever the flags; then the
    trading block under [-d] and exactly one additional block, chosen with
    [--all] before [--fields] before [-d]; then the two texts of the
    footer, unless one of these blocks raised: the exception then leaves
    the presenter and nothing more is printed. *)
Theorem display_stock_info_blocks self yf now symbol data err :
  get_stock_data yf now symbol = (Some data, err) ->
  exists head foot : list string,
    length head = 6%nat /\ length foot = 2%nat /\
    header self data >> price_and_change self data = (head, None) /\
    footer self data = (foot, None) /\
    forall (detailed : bool) specific_fields show_all,
      let body :=
        (if detailed then trading_info self data else skip)
          >> selected_block self data detailed specific_fields show_all in
      display_stock_info self data detailed specific_fields show_all
      = match body.2 with
        | None => (app head (app body.1 foot), None)
        | Some e => (app head body.1, Some e)
        end.
Proof.
  intros Hg.
  destruct (fetched_headline_fields _ _ _ _ _ Hg)
    as (name & sym & cur & prev & Hna & Hsy & Hch & Hcp & Hpc & Hpr & Hts).
  destruct (ge_zero_cell (cell_sub cur prev)) as [up Hup].
  destruct (format_currency_cell self cur) as [price Hprice].
  destruct (format_currency_cell self (cell_sub cur prev)) as [chg Hchg].
  destruct (format_currency_cell self prev) as [prv Hprv].
  destruct (format_percentage_change (cell_sub cur prev) prev) as [pct Hpct].
  assert (Hhead : exists head, length head = 6%nat /\
            header self data >> price_and_change self data = (head, None)).
  { unfold header, price_and_change, getitem.
    rewrite Hna, Hsy, Hch, Hcp, Hpc, Hpr.
    cbv beta iota delta [mbind result_bind with_result].
    rewrite Hup, Hprice, Hchg, Hpct, Hprv.
    cbv beta iota delta [with_result print seq fst snd app].
    eexists. split; [|reflexivity]. reflexivity. }
  destruct Hhead as (head & Hlen & Hhead).
  assert (Hfoot : exists foot, length foot = 2%nat /\ footer self data = (foot, None)).
  { unfold footer, getitem. rewrite Hts.
    cbv beta iota delta [with_result print seq fst snd app].
    eexists. split; [|reflexivity]. reflexivity. }
  destruct Hfoot as (foot & Hlen' & Hfoot).
  exists head, foot. repeat apply conj; try done.
  intros detailed specific_fields show_all body.
  unfold display_stock_info. rewrite (lookup_size_pos _ _ _ Hts).
  rewrite selected_block_additional_info.
  transitivity ((header self data >> price_and_change self data)
                  >> (body >> footer self data)).
  { subst body. by rewrite !seq_assoc. }
  rewrite Hhead, Hfoot.
  destruct body as [lb [e|]]; reflexivity.
Qed.

Lemma display_stock_info_blocks_witness :
  exists head foot : list string,
    length head = 6%nat /\ length foot = 2%nat /\
    header Sample.plain Sample.fetched_apple
      >> price_and_change Sample.plain Sample.fetched_apple = (head, None) /\
    footer Sample.plain Sample.fetched_apple = (foot, None) /\
    forall (detailed : bool) specific_fields show_all,
      let body :=
        (if detailed then trading_info Sample.plain Sample.fetched_apple else skip)
          >> selected_block Sample.plain Sample.fetched_apple
               detailed specific_fields show_all in
      display_stock_info Sample.plain Sample.fetched_apple
        detailed specific_fields show_all
      = match body.2 with
        | None => (app head (app body.1 foot), None)
        | Some e => (app head body.1, Some e)
        end.
Proof.
  apply (display_stock_info_blocks Sample.plain
           (Sample.serve Sample.apple Sample.two_rows) Sample.clock "aapl"
           Sample.fetched_apple []).
  apply get_stock_data_fetched. vm_compute. reflexivity.
Defined.

(** C10. The code at the failing input: under [-d] alone, with a fetched
    record that holds a text as P/E ratio, the legacy block raises after
    its first field and the footer is not printed; the formatter, which
    guards the same key, returns the text, and with [--fields trailingPE]
    the presenter prints its footer. *)
Lemma display_stock_info_footer_missing :
  delivered (get_stock_data (Sample.serve Sample.odd Sample.two_rows) Sample.clock "aapl")
  = true /\
  (display_stock_info Sample.plain Sample.fetched_odd true None false).2
  = Some (Exn ValueError "Unknown format code 'f' for object of type 'str'") /\
  last (display_stock_info Sample.plain Sample.fetched_odd true None false).1
  = Some "  Market Cap: $3.00T" /\
  format_field_value "trailingPE" (VStr "Infinity") = Ok "Infinity" /\
  (display_stock_info Sample.plain Sample.fetched_odd false (Some ["trailingPE"]) false).2
  = None /\
  last (display_stock_info Sample.plain Sample.fetched_odd false (Some ["trailingPE"]) false).1
  = Some (repeat_str 60 "=" ++ nl).
Proof. repeat apply conj; vm_compute; reflexivity. Qed.

(** ** The catalog and its flat mapping *)

Lemma dict_update_lookup {V} (items : list (string * V)) : forall d k,
  NoDup items.*1 ->
  (forall v, (k, v) ∈ items -> dict_update d items !! k = Some v) /\
  (k ∉ items.*1 -> dict_update d items !! k = d !! k).
Proof.
  induction items as [|[k0 v0] items IH]; intros d k Hnd.
  - split; [intros v H; by apply elem_of_nil in H|done].
  - apply NoDup_cons in Hnd as [Hk0 Hnd]. unfold dict_update in *. cbn [foldl fst snd].
    destruct (IH (<[k0:=v0]> d) k Hnd) as [IH1 IH2]. split.
    + intros v [[= -> ->]|Hin]%elem_of_cons; [|by apply IH1].
      rewrite IH2 by done. apply lookup_insert_eq.
    + intros Hk. apply not_elem_of_cons in Hk as [Hne Hk].
      rewrite IH2 by done. by apply lookup_insert_ne.
Qed.

Lemma flatten_update {V} (cats : list (string * list (string * V))) : forall d,
  foldl (fun acc cat => dict_update acc cat.2) d cats
  = dict_update d (flat_map snd cats).
Proof.
  induction cats as [|cat cats IH]; intros d; [done|].
  cbn [foldl flat_map]. rewrite IH. unfold dict_update. by rewrite foldl_app.
Qed.

Lemma catalog_pairs_keys : (flat_map snd field_categories).*1 = all_field_keys.
Proof. reflexivity. Qed.

Lemma catalog_keys_NoDup : NoDup all_field_keys.
Proof. apply (bool_decide_unpack (NoDup all_field_keys)). vm_compute. exact I. Qed.

Lemma all_fields_lookup k label :
  all_fields !! k = Some label <-> (k, label) ∈ flat_map snd field_categories.
Proof.
  unfold all_fields. rewrite flatten_update.
  pose proof catalog_keys_NoDup as Hnd. rewrite <- catalog_pairs_keys in Hnd.
  destruct (dict_update_lookup (flat_map snd field_categories) ∅ k Hnd) as [H1 H2].
  split; [|apply H1].
  intros H. destruct (decide (k ∈ (flat_map snd field_categories).*1)) as [Hin|Hout].
  - apply list_elem_of_fmap in Hin as ([k' v] & -> & Hin). cbn [fst] in *.
    rewrite (H1 _ Hin) in H. by injection H as <-.
  - rewrite (H2 Hout) in H. done.
Qed.

(** X1. Field keys are unique across the categories, so the loop of
    [__init__] that flattens the catalog with [dict.update] loses no
    entry: [all_fields] maps a key to a label exactly when some category
    lists that key with that label. *)
Theorem all_fields_catalog :
  NoDup all_field_keys /\
  forall k label,
    all_fields !! k = Some label <->
    exists cat, cat ∈ field_categories /\ (k, label) ∈ cat.2.
Proof.
  split; [apply catalog_keys_NoDup|]. intros k label.
  rewrite all_fields_lookup, list_elem_of_In, in_flat_map.
  split; intros (cat & Hc & Hk); exists cat.
  - by rewrite !list_elem_of_In.
  - by rewrite <- !list_elem_of_In.
Qed.

(** ** The rules of [format_field_value] *)

Ltac each_key H :=
  repeat (apply elem_of_cons in H as [->|H]; [vm_compute; tauto|]);
  by apply elem_of_nil in H.

Lemma large_currency_rule k :
  k ∈ large_currency_fields ->
  mem k ratio_fraction_fields = false /\ mem k large_currency_fields = true.
Proof. intros H. unfold large_currency_fields in H. each_key H. Qed.

Lemma plain_ratio_rule k :
  k ∈ plain_ratio_fields ->
  mem k ratio_fraction_fields = false /\ mem k large_currency_fields = false /\
  mem k plain_ratio_fields = true.
Proof. intros H. unfold plain_ratio_fields in H. each_key H. Qed.

Lemma count_rule k :
  k ∈ count_fields ->
  mem k ratio_fraction_fields = false /\ mem k large_currency_fields = false /\
  mem k plain_ratio_fields = false /\ mem k count_fields = true.
Proof. intros H. unfold count_fields in H. each_key H. Qed.

(** X2. The four key lists of [format_field_value] are without
    repetition and pairwise disjoint, and each of their keys is a key of
    the catalog: a key falls under at most one rule, whatever the order
    of the tests, and every rule can be reached from the catalog. *)
Theorem format_rules_keys :
  NoDup (app ratio_fraction_fields
           (app large_currency_fields (app plain_ratio_fields count_fields))) /\
  Forall (fun k => k ∈ all_field_keys)
    (app ratio_fraction_fields
       (app large_currency_fields (app plain_ratio_fields count_fields))).
Proof.
  split.
  - apply (bool_decide_unpack (NoDup _)). vm_compute. exact I.
  - apply (bool_decide_unpack (Forall _ _)). vm_compute. exact I.
Qed.

(** X3. [format_field_value] raises for one kind of value only, a Python
    int beyond the float range, and only under the keys whose rule
    converts it to a float: under a ratio-as-fraction key when its
    hundredfold is beyond the range, under a large-currency or plain-ratio
    key when the int itself is; the exception is then OverflowError. Under
    every other key and for every other value a text is returned. *)
Theorem format_field_value_raises k v :
  ((exists e, format_field_value k v = Raise e) <->
   exists z, v = VInt z /\
     ((k ∈ ratio_fraction_fields /\ int_fits (z * 100) = false) \/
      ((k ∈ large_currency_fields \/ k ∈ plain_ratio_fields) /\ int_fits z = false))) /\
  (forall e, format_field_value k v = Raise e -> e = overflow_error).
Proof.
  pose proof (format_field_value_raised k v) as R. split; [split|].
  - intros [e He]. rewrite He in R. cbn [raised] in R.
    destruct (overflows k v) eqn:Ho; [clear R|done]. unfold overflows, mem in Ho.
    destruct v as [|b|z|z|f|s|l|d]; try discriminate. exists z. split; [done|].
    destruct (bool_decide (k ∈ ratio_fraction_fields)) eqn:E1.
    { left. apply bool_decide_eq_true in E1. by apply negb_true_iff in Ho. }
    right.
    destruct (bool_decide (k ∈ large_currency_fields)) eqn:E2.
    { apply bool_decide_eq_true in E2. apply negb_true_iff in Ho. tauto. }
    destruct (bool_decide (k ∈ plain_ratio_fields)) eqn:E3; [|done].
    apply bool_decide_eq_true in E3. apply negb_true_iff in Ho. tauto.
  - intros (z & -> & H).
    assert (Ho : overflows k (VInt z) = true).
    { unfold overflows. destruct H as [[Hk Hf]|[[Hk|Hk] Hf]].
      + unfold mem. rewrite bool_decide_eq_true_2 by done. by rewrite Hf.
      + destruct (large_currency_rule k Hk) as [H1 H2]. rewrite H1, H2.
        cbn [orb]. by rewrite Hf.
      + destruct (plain_ratio_rule k Hk) as (H1 & H2 & H3). rewrite H1, H2, H3.
        cbn [orb]. by rewrite Hf. }
    exists overflow_error. by apply format_field_value_overflow.
  - intros e He. rewrite He in R. cbn [raised] in R.
    destruct (overflows k v); congruence.
Qed.

(** ** Grouped counts *)

Lemma without_commas_app a b :
  without_commas (a ++ b) = without_commas a ++ without_commas b.
Proof.
  induction a as [|c a IH]; simpl; [done|].
  rewrite IH. by destruct (Ascii.eqb c ",").
Qed.

Lemma without_commas_group3 s : without_commas (group3 s) = without_commas s.
Proof.
  induction s as [|c s IH]; [done|]. cbn [group3 without_commas].
  destruct (_ && _); cbn [without_commas Ascii.eqb Bool.eqb]; by rewrite IH.
Qed.

Lemma without_commas_length s :
  (String.length (without_commas s) <= String.length s)%nat.
Proof.
  induction s as [|c s IH]; [done|]. cbn [without_commas].
  destruct (Ascii.eqb c ","); cbn [String.length]; lia.
Qed.

Lemma without_commas_String c s :
  without_commas (String c s) = String c s ->
  Ascii.eqb c "," = false /\ without_commas s = s.
Proof.
  cbn [without_commas]. destruct (Ascii.eqb c ",").
  - intros H. pose proof (without_commas_length s) as L. rewrite H in L.
    cbn [String.length] in L. lia.
  - by intros [= ->].
Qed.

Lemma without_commas_substring s :
  without_commas s = s ->
  forall n m, without_commas (substring n m s) = substring n m s.
Proof.
  induction s as [|c s IH]; intros H n m; [by destruct n, m|].
  apply without_commas_String in H as [Hc Hs].
  destruct n as [|n]; cbn [substring]; [|by apply IH].
  destruct m as [|m]; [done|]. cbn [without_commas]. rewrite Hc. by rewrite IH.
Qed.

Lemma without_commas_zeros n : without_commas (zeros n) = zeros n.
Proof. induction n as [|n IH]; [done|]. cbn [zeros without_commas]. by rewrite IH. Qed.

Lemma without_commas_uint u :
  without_commas (NilEmpty.string_of_uint u) = NilEmpty.string_of_uint u.
Proof. induction u; cbn [NilEmpty.string_of_uint without_commas]; [done|by rewrite IHu..]. Qed.

Lemma without_commas_dec_N n : without_commas (dec_N n) = dec_N n.
Proof.
  unfold dec_N, NilZero.string_of_uint.
  destruct (N.to_uint n); try done; apply without_commas_uint.
Qed.

Lemma without_commas_dec_Z z : without_commas (dec_Z z) = dec_Z z.
Proof.
  destruct z; cbn [dec_Z]; try apply without_commas_dec_N.
  rewrite without_commas_app. by rewrite without_commas_dec_N.
Qed.

Lemma without_commas_pad2 z : without_commas (pad2 z) = pad2 z.
Proof.
  unfold pad2. destruct (z <? 10); [rewrite without_commas_app|];
    by rewrite without_commas_dec_Z.
Qed.

Lemma without_commas_group_int z : without_commas (group_int z) = dec_Z z.
Proof.
  destruct z; cbn [group_int dec_Z];
    rewrite ?without_commas_app, without_commas_group3, without_commas_dec_N; done.
Qed.

Lemma without_commas_sign plus neg :
  without_commas (sign_str plus neg) = sign_str plus neg.
Proof. by destruct plus, neg. Qed.

Lemma without_commas_repr_abs m e :
  without_commas (repr_abs true m e) = repr_abs false m e.
Proof.
  unfold repr_abs. destruct (shortest m e) as [D k]. cbv zeta.
  pose proof (without_commas_dec_Z D) as HD.
  destruct (_ || _).
  { rewrite !without_commas_app, without_commas_pad2.
    f_equal; [|by destruct (_ <? 0)].
    destruct (dec_Z D) as [|c [|c' rest]]; try done.
    apply without_commas_String in HD as [Hc Hr].
    cbn [without_commas]. rewrite Hc. simpl. simpl in Hr. by rewrite Hr. }
  destruct (_ <=? 0).
  { rewrite !without_commas_app, without_commas_zeros, HD. done. }
  destruct (_ <? _).
  - rewrite !without_commas_app, without_commas_group3.
    by rewrite !without_commas_substring.
  - rewrite !without_commas_app, without_commas_group3, without_commas_app.
    by rewrite HD, without_commas_zeros.
Qed.

Lemma without_commas_repr f :
  without_commas (format_repr true f) = format_repr false f.
Proof.
  destruct f as [s|s| |s m e]; cbn [format_repr];
    rewrite ?without_commas_app, ?without_commas_sign, ?without_commas_repr_abs; done.
Qed.

(** X4. Under a count key (volume, share counts, ...) a Python int and
    a float are rendered with thousands separators and nothing else is
    changed: deleting the commas from the text gives back [str] of the
    value. *)
Theorem format_field_value_count k :
  k ∈ count_fields ->
  (forall z, format_field_value k (VInt z) = Ok (group_int z) /\
             without_commas (group_int z) = str (VInt z)) /\
  (forall f, format_field_value k (VFloat f) = Ok (format_repr true f) /\
             without_commas (format_repr true f) = str (VFloat f)).
Proof.
  intros Hk. destruct (count_rule k Hk) as (H1 & H2 & H3 & H4).
  unfold format_field_value. rewrite H1, H2, H3, H4. split.
  - intros z. split; [done|apply without_commas_group_int].
  - intros f. split; [done|apply without_commas_repr].
Qed.

Lemma format_field_value_count_witness :
  format_field_value "volume" (VInt 1234567) = Ok "1,234,567" /\
  without_commas "1,234,567" = "1234567" /\
  format_field_value "sharesOutstanding" (VFloat (float_of_Z 15500000000))
  = Ok "15,500,000,000.0".
Proof.
  repeat apply conj.
  - rewrite (proj1 (proj1 (format_field_value_count "volume"
                             ltac:(vm_compute; set_solver)) 1234567)).
    vm_compute. reflexivity.
  - vm_compute. reflexivity.
  - rewrite (proj1 (proj2 (format_field_value_count "sharesOutstanding"
                             ltac:(vm_compute; set_solver)) _)).
    vm_compute. reflexivity.
Defined.

(** ** Signed percentages and the currency fallback *)

(** X5. [format_percentage] always shows a sign: for every float the
    text is "-" when the sign bit is set and "+" otherwise (also for
    +0.0 and not-a-number), followed by the 2-decimal text of the
    absolute value and "%"; the int 0 that [get_stock_data] stores when
    the previous close is 0 is shown as "+0.00%". *)
Theorem format_percentage_sign :
  (forall f,
     format_percentage (VFloat f)
     = Ok (String (if signbit f then "-" else "+")
             (format_fixed2 false false (SFabs f) ++ "%"))) /\
  format_percentage (VInt 0) = Ok "+0.00%".
Proof.
  split; [|vm_compute; reflexivity].
  intros [[]|[]| |[] m e]; reflexivity.
Qed.

(** X6. [format_currency] returns the text of [locale.currency] when
    that call succeeds; when it raises, the fallback is "$" and the
    grouped 2-decimal text, and the fallback itself raises exactly for a
    value that is not a number or is a Python int beyond the float
    range. *)
Theorem format_currency_fallback self v :
  match locale_currency self v with
  | Some s => format_currency self v = Ok s
  | None =>
      ((numeric v = true /\ fits v = true) ->
       format_currency self v = Ok ("$" ++ format_fixed2 false true (as_float v))) /\
      ((exists e, format_currency self v = Raise e) <->
       numeric v = false \/ fits v = false)
  end.
Proof.
  unfold format_currency. destruct (locale_currency self v) as [s|]; [done|]. split.
  - intros [Hn Hf]. by rewrite format_2f_ok.
  - destruct v as [|b|z|z|f|s|l|d]; cbn [format_2f numeric fits mbind result_bind].
    + split; [by left|by eexists].
    + rewrite py_float_bool. cbn [mbind result_bind]. split; [by intros [? ?]|by intros [|]].
    + destruct (int_fits z) eqn:E.
      * rewrite py_float_fits by done. split; [by intros [? ?]|by intros [|]].
      * rewrite py_float_overflow by done. split; [by right|by eexists].
    + split; [by intros [? ?]|by intros [|]].
    + split; [by intros [? ?]|by intros [|]].
    + split; [by left|by eexists].
    + split; [by left|by eexists].
    + split; [by left|by eexists].
Qed.

(** *** Amounts below the thresholds *)

Lemma threshold_positive t :
  t ∈ [TRILLION; BILLION; MILLION; THOUSAND] ->
  exists m e, t = S754_finite false m e.
Proof.
  intros H. repeat (apply elem_of_cons in H as [->|H]; [vm_compute; eauto|]).
  by apply elem_of_nil in H.
Qed.

Lemma below_threshold t f :
  t ∈ [TRILLION; BILLION; MILLION; THOUSAND] ->
  signbit f = true \/ f = S754_nan -> fle t f = false.
Proof.
  intros Ht Hf. destruct (threshold_positive t Ht) as (m & e & ->).
  destruct Hf as [Hf| ->]; [|done]. by destruct f as [[]|[]| |[] m' e'].
Qed.

(** X7. [format_large_number] never abbreviates a negative amount: a
    float with the sign bit set (also -0.0 and minus infinity) and
    not-a-number are below every threshold, and are rendered as "$" and
    the grouped 2-decimal text, whatever their magnitude. *)
Theorem format_large_number_negative f :
  signbit f = true \/ f = S754_nan ->
  format_large_number (VFloat f) = Ok ("$" ++ format_fixed2 false true f).
Proof.
  intros Hf. unfold format_large_number. cbn [ge_float format_2f].
  rewrite (below_threshold TRILLION f), (below_threshold BILLION f),
    (below_threshold MILLION f), (below_threshold THOUSAND f);
    first [exact Hf | apply list_elem_of_In; simpl; tauto | done].
Qed.

Lemma format_large_number_negative_witness :
  format_large_number (VFloat (float_of_Z (-5 * 10 ^ 12)))
  = Ok "$-5,000,000,000,000.00".
Proof.
  rewrite (format_large_number_negative (float_of_Z (-5 * 10 ^ 12)) (or_introl eq_refl)).
  vm_compute. reflexivity.
Defined.

(** ** The outcomes of the two fetchers *)

Lemma stock_data_body_delivers yf now s i h close :
  info (yf s) = Ok i -> history (yf s) "2d" = Ok h ->
  frame_empty h = false -> columns h !! "Close" = Some close ->
  exists data, stock_data_body yf now s = Ok (Some data).
Proof.
  intros Hi Hh He Hc. unfold stock_data_body. rewrite Hi, Hh.
  cbv beta iota delta [mbind result_bind]. rewrite He.
  pose proof (frame_nonempty h He) as Hn.
  unfold column. rewrite Hc. rewrite iloc_last.
  destruct (last_row_is_Some close Hn) as [cur ->].
  rewrite !last_or_ok by done.
  destruct (1 <? nrows h)%nat eqn:E1; [|by eexists].
  apply Nat.ltb_lt in E1. rewrite iloc_before_last by done.
  destruct (row_before_last_is_Some close E1) as [prev ->]. by eexists.
Qed.

(** X8. The outcomes of [get_stock_data] are these and no other: an
    exception of the provider, raised by the metadata call or else by
    the history call, gives no data and one line on the error stream
    with the normalised symbol and the exception's text; an empty window
    gives no data in silence; a window without a [Close] column gives no
    data and the line of the KeyError; every other window gives a
    record and no diagnostic. In particular no row index is ever out of
    range. *)
Theorem get_stock_data_outcomes yf now symbol :
  let s := strip (upper symbol) in
  let report e := ["Error fetching data for " ++ s ++ ": " ++ message e] in
  match info (yf s), history (yf s) "2d" with
  | Raise e, _ => get_stock_data yf now symbol = (None, report e)
  | Ok _, Raise e => get_stock_data yf now symbol = (None, report e)
  | Ok _, Ok h =>
      if frame_empty h then get_stock_data yf now symbol = (None, [])
      else match columns h !! "Close" with
           | None => get_stock_data yf now symbol = (None, report (key_error "Close"))
           | Some _ => exists data, get_stock_data yf now symbol = (Some data, [])
           end
  end.
Proof.
  cbv zeta. unfold get_stock_data.
  destruct (info (yf (strip (upper symbol)))) as [i|e] eqn:Ei;
    [|unfold stock_data_body; by rewrite Ei].
  destruct (history (yf (strip (upper symbol))) "2d") as [h|e] eqn:Eh;
    [|unfold stock_data_body; by rewrite Ei, Eh].
  destruct (frame_empty h) eqn:Ee.
  { unfold stock_data_body. rewrite Ei, Eh.
    cbv beta iota delta [mbind result_bind]. by rewrite Ee. }
  destruct (columns h !! "Close") as [close|] eqn:Ec.
  - destruct (stock_data_body_delivers yf now _ i h close Ei Eh Ee Ec) as [data ->].
    by exists data.
  - unfold stock_data_body. rewrite Ei, Eh.
    cbv beta iota delta [mbind result_bind]. rewrite Ee. unfold column. by rewrite Ec.
Qed.

(** X9. [get_historical_data] has the same fail-soft outcomes, without
    consulting the metadata: an exception of the history call gives no
    data and one line on the error stream; an empty window gives no data
    in silence; a non-empty window gives chart data exactly when it has
    a [Close] column, and never a diagnostic together with data. *)
Theorem get_historical_data_outcomes yf symbol period :
  let s := strip (upper symbol) in
  let report e := ["Error fetching historical data for " ++ s ++ ": " ++ message e] in
  match history (yf s) period with
  | Raise e => get_historical_data yf symbol period = (None, report e)
  | Ok h =>
      if frame_empty h then get_historical_data yf symbol period = (None, [])
      else match columns h !! "Close" with
           | None =>
               get_historical_data yf symbol period = (None, report (key_error "Close"))
           | Some _ =>
               exists d, get_historical_data yf symbol period = (Some d, [])
           end
  end.
Proof.
  cbv zeta. unfold get_historical_data, historical_data_body.
  destruct (history (yf (strip (upper symbol))) period) as [h|e]; [|done].
  cbv beta iota delta [mbind result_bind].
  destruct (frame_empty h); [done|]. unfold column.
  destruct (columns h !! "Close") as [close|]; [|done].
  rewrite !tolist_or_empty_ok. by eexists.
Qed.

(** ** The fetched record *)

Lemma fetched_record yf now symbol data err i :
  get_stock_data yf now symbol = (Some data, err) ->
  info (yf (strip (upper symbol))) = Ok i ->
  exists h (cur prev : cell),
    nrows h <> 0%nat /\
    data = merge_info i
             (base_record (VStr (strip (upper symbol))) (name_of i (strip (upper symbol)))
                (value_of_cell cur) (value_of_cell prev)
                (value_of_cell (cell_sub cur prev))
                (percent_change (cell_sub cur prev) prev)
                (last_or_default h "Volume" (VInt 0))
                (last_or_default h "High" (value_of_cell cur))
                (last_or_default h "Low" (value_of_cell cur))
                (VStr now)).
Proof.
  intros Hg Hi. apply get_stock_data_Some in Hg as [_ Hb].
  apply stock_data_body_Some in Hb
    as (i' & h & close & cur & prev & Hi' & _ & Hn & _ & _ & _ & ->).
  rewrite Hi in Hi'. injection Hi' as <-. by exists h, cur, prev.
Qed.

Lemma override_not_none i k v : override i k = Some v -> v <> VNone.
Proof.
  unfold override. destruct (i !! k) as [x|]; [|done].
  destruct (is_none x) eqn:E; [done|]. intros [= <-] ->. done.
Qed.

Lemma last_or_default_not_none h name dflt :
  dflt <> VNone -> last_or_default h name dflt <> VNone.
Proof.
  intros Hd. unfold last_or_default. destruct (columns h !! name) as [c|]; [|done].
  destruct (last_row c) as [[]|]; done.
Qed.

Lemma headline_key_cases k :
  k ∈ headline_keys ->
  k = "symbol" \/ k = "name" \/ k = "current_price" \/ k = "previous_close" \/
  k = "change" \/ k = "change_percent" \/ k = "volume" \/ k = "high" \/
  k = "low" \/ k = "timestamp".
Proof.
  intros H. unfold headline_keys in H.
  repeat (apply elem_of_cons in H as [->|H]; [tauto|]). by apply elem_of_nil in H.
Qed.

Lemma not_headline_key k sy na cp pc ch chp vo hi lo ts :
  k ∉ headline_keys ->
  base_record sy na cp pc ch chp vo hi lo ts !! k = None.
Proof.
  intros H. rewrite base_record_lookup.
  repeat match goal with
         | |- context [String.eqb k ?c] =>
             destruct (String.eqb_spec k c) as [->|_];
             [exfalso; apply H; apply list_elem_of_In; simpl; tauto|]
         end.
  done.
Qed.

(** X10. The keys of a fetched record are the ten keys of the record
    literal and catalog keys, and nothing else of the metadata: the ten
    keys are always present; any other key is in the record exactly when
    it is a catalog key that the metadata holds with a non-null value,
    and then with that value; and no catalog key of the record holds
    None. *)
Theorem get_stock_data_record_keys yf now symbol data err i :
  get_stock_data yf now symbol = (Some data, err) ->
  info (yf (strip (upper symbol))) = Ok i ->
  (forall k, k ∈ headline_keys -> is_Some (data !! k)) /\
  (forall k, k ∉ headline_keys ->
     data !! k = if mem k all_field_keys then override i k else None) /\
  (forall k, k ∈ all_field_keys -> data !! k <> Some VNone).
Proof.
  intros Hg Hi.
  destruct (fetched_record _ _ _ _ _ _ Hg Hi) as (h & cur & prev & Hn & ->).
  split; [|split].
  - intros k Hk. rewrite merge_info_lookup.
    apply headline_key_cases in Hk.
    repeat (destruct Hk as [->|Hk]; [rewrite base_record_lookup;
      cbn [String.eqb Ascii.eqb Bool.eqb andb];
      destruct (mem _ _); [destruct (override i _)|]; by eexists|]).
    subst k. rewrite base_record_lookup. cbn [String.eqb Ascii.eqb Bool.eqb andb].
    destruct (mem _ _); [destruct (override i _)|]; by eexists.
  - intros k Hk. rewrite merge_info_lookup, not_headline_key by done.
    destruct (mem k all_field_keys); [|done]. by destruct (override i k).
  - intros k Hk. rewrite merge_info_lookup. unfold mem.
    rewrite bool_decide_eq_true_2 by done.
    destruct (override i k) as [v|] eqn:Eo.
    { cbn. intros [= ->]. by apply override_not_none in Eo. }
    cbn [from_option].
    destruct (decide (k ∈ headline_keys)) as [Hh|Hh];
      [|by rewrite not_headline_key].
    assert (Hm : mem k all_field_keys = true) by (by apply bool_decide_eq_true_2).
    apply headline_key_cases in Hh.
    repeat (destruct Hh as [->|Hh]; [first [by vm_compute in Hm |
      rewrite base_record_lookup; cbn [String.eqb Ascii.eqb Bool.eqb andb];
      intros [= Hv]; first [done | by apply last_or_default_not_none in Hv]]|]).
    subst k. by vm_compute in Hm.
Qed.

Lemma get_stock_data_record_keys_witness :
  (forall k, k ∈ headline_keys -> is_Some (Sample.fetched_apple !! k)) /\
  (forall k, k ∉ headline_keys ->
     Sample.fetched_apple !! k
     = if mem k all_field_keys then override Sample.apple k else None) /\
  (forall k, k ∈ all_field_keys -> Sample.fetched_apple !! k <> Some VNone).
Proof.
  apply (get_stock_data_record_keys (Sample.serve Sample.apple Sample.two_rows)
           Sample.clock "aapl" Sample.fetched_apple [] Sample.apple);
    [apply get_stock_data_fetched; vm_compute; reflexivity | reflexivity].
Defined.

(** X11. In a fetched record, [symbol] is the metadata's [symbol] when
    the metadata holds one that is not null (it is a catalog key), else
    the normalised symbol; [name] is the metadata's [longName] whenever
    that key is present, even with a null value, else its [shortName]
    if present, else the normalised symbol, and the merge never changes
    it; [timestamp] is the clock reading. *)
Theorem get_stock_data_symbol_name yf now symbol data err i :
  get_stock_data yf now symbol = (Some data, err) ->
  info (yf (strip (upper symbol))) = Ok i ->
  data !! "symbol" = Some (default (VStr (strip (upper symbol))) (override i "symbol")) /\
  data !! "name" = Some match i !! "longName" with
                        | Some v => v
                        | None => default (VStr (strip (upper symbol))) (i !! "shortName")
                        end /\
  data !! "timestamp" = Some (VStr now).
Proof.
  intros Hg Hi.
  destruct (fetched_record _ _ _ _ _ _ Hg Hi) as (h & cur & prev & Hn & ->).
  repeat apply conj.
  - fetched_key. by destruct (override i "symbol").
  - fetched_key. unfold name_of. by destruct (i !! "longName"), (i !! "shortName").
  - by fetched_key.
Qed.

Lemma get_stock_data_symbol_name_witness :
  Sample.fetched_apple !! "symbol"
  = Some (default (VStr (strip (upper "aapl"))) (override Sample.apple "symbol")) /\
  Sample.fetched_apple !! "name"
  = Some match Sample.apple !! "longName" with
         | Some v => v
         | None => default (VStr (strip (upper "aapl"))) (Sample.apple !! "shortName")
         end /\
  Sample.fetched_apple !! "timestamp" = Some (VStr Sample.clock).
Proof.
  apply (get_stock_data_symbol_name (Sample.serve Sample.apple Sample.two_rows)
           Sample.clock "aapl" Sample.fetched_apple [] Sample.apple);
    [apply get_stock_data_fetched; vm_compute; reflexivity | reflexivity].
Defined.

(** ** Normalisation of the symbol *)

Lemma upper_ascii_idem c : upper_ascii (upper_ascii c) = upper_ascii c.
Proof. destruct c as [[] [] [] [] [] [] [] []]; reflexivity. Qed.

Lemma is_space_upper c : is_space (upper_ascii c) = is_space c.
Proof. destruct c as [[] [] [] [] [] [] [] []]; reflexivity. Qed.

Lemma upper_idem s : upper (upper s) = upper s.
Proof.
  induction s as [|c s IH]; [done|]. cbn [upper]. by rewrite upper_ascii_idem, IH.
Qed.

Lemma upper_lstrip s : upper (lstrip s) = lstrip (upper s).
Proof.
  induction s as [|c s IH]; [done|]. cbn [upper lstrip]. rewrite is_space_upper.
  by destruct (is_space c).
Qed.

Lemma upper_rstrip s : upper (rstrip s) = rstrip (upper s).
Proof.
  induction s as [|c s IH]; [done|]. cbn [upper rstrip]. rewrite <- IH, is_space_upper.
  destruct (rstrip s); [by destruct (is_space c)|done].
Qed.

Lemma upper_strip s : upper (strip s) = strip (upper s).
Proof. unfold strip. by rewrite upper_rstrip, upper_lstrip. Qed.

Lemma rstrip_idem s : rstrip (rstrip s) = rstrip s.
Proof.
  induction s as [|c s IH]; [done|]. cbn [rstrip].
  destruct (rstrip s) as [|c1 r1] eqn:E.
  - destruct (is_space c) eqn:Ec; [done|]. cbn [rstrip]. by rewrite Ec.
  - cbn [rstrip]. cbn [rstrip] in IH. by rewrite IH.
Qed.

Lemma lstrip_head s :
  lstrip s = "" \/ exists c t, lstrip s = String c t /\ is_space c = false.
Proof.
  induction s as [|c s IH]; [by left|]. cbn [lstrip].
  destruct (is_space c) eqn:E; [done|]. right. by exists c, s.
Qed.

Lemma rstrip_head c t :
  is_space c = false -> exists r, rstrip (String c t) = String c r.
Proof.
  intros E. cbn [rstrip]. destruct (rstrip t); [|by eexists].
  rewrite E. by eexists.
Qed.

Lemma strip_idem s : strip (strip s) = strip s.
Proof.
  unfold strip. destruct (lstrip_head s) as [->|(c & t & -> & Ec)]; [done|].
  destruct (rstrip_head c t Ec) as [r Hr]. rewrite Hr. cbn [lstrip]. rewrite Ec.
  rewrite <- Hr. apply rstrip_idem.
Qed.

Lemma normalise_idem s : strip (upper (strip (upper s))) = strip (upper s).
Proof. by rewrite upper_strip, upper_idem, strip_idem. Qed.

(** X12. Normalising a symbol (upper case, surrounding white space
    removed) is idempotent on ASCII text, so both fetchers give for the
    normalised symbol what they give for the symbol as typed: the
    [symbol] of a record or of chart data can be fetched again with the
    same result. *)
Theorem fetch_normalised_symbol symbol :
  is_ascii symbol = true ->
  strip (upper (strip (upper symbol))) = strip (upper symbol) /\
  (forall yf now,
     get_stock_data yf now (strip (upper symbol)) = get_stock_data yf now symbol) /\
  (forall yf period,
     get_historical_data yf (strip (upper symbol)) period
     = get_historical_data yf symbol period).
Proof.
  intros _. split; [apply normalise_idem|]. split.
  - intros yf now. unfold get_stock_data. by rewrite normalise_idem.
  - intros yf period. unfold get_historical_data. by rewrite normalise_idem.
Qed.

Lemma fetch_normalised_symbol_witness :
  is_ascii "  aapl " = true /\ strip (upper "  aapl ") = "AAPL" /\
  strip (upper (strip (upper "  aapl "))) = strip (upper "  aapl ").
Proof.
  split; [reflexivity|]. split; [reflexivity|].
  apply (proj1 (fetch_normalised_symbol "  aapl " eq_refl)).
Defined.

(** ** Chart renderer *)

Lemma get_historical_data_Some yf symbol period d err :
  get_historical_data yf symbol period = (Some d, err) ->
  err = [] /\
  exists h close,
    nrows h <> 0%nat /\ columns h !! "Close" = Some close /\
    dates d = map strftime_dmy (vec_to_list (index h)) /\
    prices d = vec_to_list close /\
    volumes d = series_of h "Volume".
Proof.
  unfold get_historical_data, historical_data_body.
  destruct (history (yf (strip (upper symbol))) period) as [h|e]; [|done].
  cbv beta iota delta [mbind result_bind].
  destruct (frame_empty h) eqn:Ee; [done|]. unfold column.
  destruct (columns h !! "Close") as [close|] eqn:Ec; [|done].
  rewrite !tolist_or_empty_ok. cbv beta iota delta [mbind result_bind].
  intros [= <- <-]. split; [done|]. exists h, close.
  split; [by apply frame_nonempty|]. done.
Qed.

Lemma plot_not_stderr c err : Plot c ∈ map Stderr err -> False.
Proof. intros H. apply list_elem_of_In, in_map_iff in H as (x & [=] & _). Qed.

Lemma chart_calls_show d symbol period chart_type :
  Plot Show ∈ chart_calls d symbol period chart_type <->
  chart_type = "line" \/ (chart_type = "volume" /\ volumes d <> []).
Proof.
  unfold chart_calls.
  destruct (String.eqb_spec chart_type "line") as [->|Hl].
  { split; [by left|]. intros _. apply list_elem_of_In. simpl. tauto. }
  destruct (String.eqb_spec chart_type "volume") as [->|Hv].
  - destruct (volumes d) as [|x l]; cbn [length Nat.ltb Nat.leb].
    + split; [|by intros [|[_ ?]]].
      intros H. apply list_elem_of_In in H. simpl in H. by destruct H as [|[]].
    + split; [by right|]. intros _. apply list_elem_of_In. simpl. tauto.
  - split; [by intros ?%elem_of_nil|]. by intros [|[? _]].
Qed.

(** X13. [display_chart] shows a figure exactly when the plotting
    library is available, the historical data was fetched, and the chart
    type is "line", or is "volume" with a volume series that is not
    empty; it makes no call to the plotting library at all without the
    library or without data. *)
Theorem display_chart_shows avail yf symbol period chart_type :
  (Plot Show ∈ display_chart avail yf symbol period chart_type <->
   avail = true /\
   exists d, (get_historical_data yf symbol period).1 = Some d /\
     (chart_type = "line" \/ (chart_type = "volume" /\ volumes d <> []))) /\
  (forall c, Plot c ∈ display_chart avail yf symbol period chart_type ->
     avail = true /\ delivered (get_historical_data yf symbol period) = true).
Proof.
  unfold display_chart, delivered. destruct avail; cbn [negb].
  2:{ split; [split|].
      - intros H. apply list_elem_of_In in H. simpl in H. by destruct H as [|[]].
      - by intros [? _].
      - intros c H. apply list_elem_of_In in H. simpl in H. by destruct H as [|[]]. }
  destruct (get_historical_data yf symbol period) as [[d|] err]; cbn [fst]; split.
  - rewrite elem_of_app, !elem_of_cons, chart_calls_show. split.
    + intros [H|[|[|H]]]; try done; [by apply plot_not_stderr in H|].
      split; [done|]. by exists d.
    + intros [_ (d' & [= <-] & H)]. tauto.
  - done.
  - split; [|by intros [_ (d & ? & _)]].
    intros [H|H]%elem_of_app; [by apply plot_not_stderr in H|].
    apply list_elem_of_In in H. simpl in H. by destruct H as [|[]].
  - intros c [H|H]%elem_of_app; [by apply plot_not_stderr in H|].
    apply list_elem_of_In in H. simpl in H. by destruct H as [|[]].
Qed.

Lemma chart_calls_series d symbol period chart_type xs ys color :
  Plot (PlotLine xs ys color) ∈ chart_calls d symbol period chart_type \/
  Plot (PlotBar xs ys color) ∈ chart_calls d symbol period chart_type ->
  xs = dates d /\ (ys = prices d \/ (ys = volumes d /\ volumes d <> [])).
Proof.
  unfold chart_calls.
  destruct (String.eqb chart_type "line").
  { intros [H|H]; apply list_elem_of_In in H; simpl in H;
      repeat (destruct H as [H|H]; [try discriminate|]); try done.
    injection H as <- <- <-. tauto. }
  destruct (String.eqb chart_type "volume"); [|by intros [?%elem_of_nil|?%elem_of_nil]].
  destruct (volumes d) as [|x l]; cbn [length Nat.ltb Nat.leb].
  - intros [H|H]; apply list_elem_of_In in H; simpl in H; by destruct H as [|[]].
  - intros [H|H]; apply list_elem_of_In in H; simpl in H;
      repeat (destruct H as [H|H]; [try discriminate|]); try done.
    injection H as <- <- <-. split; [done|]. by right.
Qed.

(** X14. Whatever [display_chart] plots, as a line or as bars, is a
    pair of series of the same length, one label per value, and is not
    empty: the labels are the dates of the window and the values its
    closing prices or its volumes. *)
Theorem display_chart_series avail yf symbol period chart_type xs ys color :
  Plot (PlotLine xs ys color) ∈ display_chart avail yf symbol period chart_type \/
  Plot (PlotBar xs ys color) ∈ display_chart avail yf symbol period chart_type ->
  length xs = length ys /\ xs <> [].
Proof.
  unfold display_chart. destruct avail; cbn [negb].
  2:{ intros [H|H]; apply list_elem_of_In in H; simpl in H; by destruct H as [|[]]. }
  destruct (get_historical_data yf symbol period) as [[d|] err] eqn:E.
  2:{ intros [[H|H]%elem_of_app|[H|H]%elem_of_app];
        try (by apply plot_not_stderr in H);
        apply list_elem_of_In in H; simpl in H; by destruct H as [|[]]. }
  apply get_historical_data_Some in E
    as (-> & h & close & Hn & Hc & Hd & Hp & Hv).
  cbn [map app]. intros H.
  assert (Hcalls : Plot (PlotLine xs ys color) ∈ chart_calls d symbol period chart_type \/
                   Plot (PlotBar xs ys color) ∈ chart_calls d symbol period chart_type).
  { destruct H as [H|H]; [left|right];
      apply elem_of_cons in H as [?|H]; try done;
      apply elem_of_cons in H as [?|H]; done. }
  apply chart_calls_series in Hcalls as [-> Hy].
  assert (Hlen : length (dates d) = nrows h)
    by (by rewrite Hd, length_map, length_vec_to_list).
  split.
  - destruct Hy as [->|[-> Hne]].
    + by rewrite Hlen, Hp, length_vec_to_list.
    + rewrite Hlen, Hv. rewrite Hv in Hne. unfold series_of in *.
      destruct (columns h !! "Volume"); [by rewrite length_vec_to_list|done].
  - intros Hnil. rewrite Hnil in Hlen. cbn [length] in Hlen. done.
Qed.

Lemma display_chart_series_witness :
  length ["02/01/2024"; "03/01/2024"]
  = length [CFloat (float_of_Z 100); CFloat (float_of_Z 110)] /\
  ["02/01/2024"; "03/01/2024"] <> [].
Proof.
  apply (display_chart_series true (Sample.serve ∅ Sample.two_rows) "aapl" "1mo" "line"
           _ _ "green").
  left. apply list_elem_of_In. vm_compute. tauto.
Defined.

(** X15. For a chart type other than "line" and "volume" (the accepted
    "candlestick" among them) a successful fetch is followed by the two
    set-up calls and nothing else: no figure is drawn or shown, and no
    message is printed. *)
Theorem display_chart_other_type yf symbol period chart_type d err :
  get_historical_data yf symbol period = (Some d, err) ->
  chart_type <> "line" -> chart_type <> "volume" ->
  display_chart true yf symbol period chart_type
  = [Plot ClearFigure; Plot (Theme "dark")].
Proof.
  intros E Hl Hv. unfold display_chart. cbn [negb]. rewrite E.
  apply get_historical_data_Some in E as [-> _]. cbn [map app].
  unfold chart_calls.
  destruct (String.eqb_spec chart_type "line"); [done|].
  destruct (String.eqb_spec chart_type "volume"); done.
Qed.

Lemma display_chart_other_type_witness :
  display_chart true (Sample.serve ∅ Sample.two_rows) "aapl" "3mo" "candlestick"
  = [Plot ClearFigure; Plot (Theme "dark")].
Proof.
  destruct (get_historical_data (Sample.serve ∅ Sample.two_rows) "aapl" "3mo")
    as [[d|] err] eqn:E; [|by vm_compute in E].
  apply (display_chart_other_type _ _ _ _ d err E); discriminate.
Defined.

(** ** Presenter *)

Lemma int_or_float_not_none v : is_int_or_float v = true -> is_none v = false.
Proof. by destruct v. Qed.

Lemma format_field_value_marketCap v :
  is_int_or_float v = true ->
  format_field_value "marketCap" v = format_large_number v.
Proof.
  intros H. unfold format_field_value. rewrite (int_or_float_not_none v H), H.
  replace (mem "marketCap" ratio_fraction_fields) with false by (vm_compute; reflexivity).
  replace (mem "marketCap" large_currency_fields) with true by (vm_compute; reflexivity).
  done.
Qed.

Lemma format_field_value_trailingPE v :
  is_int_or_float v = true ->
  format_field_value "trailingPE" v = format_2f false false v.
Proof.
  intros H. unfold format_field_value. rewrite (int_or_float_not_none v H), H.
  replace (mem "trailingPE" ratio_fraction_fields) with false by (vm_compute; reflexivity).
  replace (mem "trailingPE" large_currency_fields) with false by (vm_compute; reflexivity).
  replace (mem "trailingPE" plain_ratio_fields) with true by (vm_compute; reflexivity).
  done.
Qed.

Lemma format_field_value_dividendYield v :
  is_int_or_float v = true ->
  format_field_value "dividendYield" v
  = (x ← mul100 v; s ← format_2f false false x; Ok (s ++ "%")).
Proof.
  intros H. unfold format_field_value. rewrite (int_or_float_not_none v H), H.
  replace (mem "dividendYield" ratio_fraction_fields) with true by (vm_compute; reflexivity).
  done.
Qed.

(** X16. The legacy block of [-d] formats its three fields inline, and
    agrees with the formatter: when the market capitalisation, the P/E
    ratio and the dividend yield that the record holds are instances of
    int or float, each line of the block is its own label followed by
    what [format_field_value] gives for the field, and the block raises
    exactly where [format_field_value] does. *)
Theorem display_detailed_info_formatter self data :
  (forall k v, k ∈ ["marketCap"; "trailingPE"; "dividendYield"] ->
               data !! k = Some v -> is_int_or_float v = true) ->
  _display_detailed_info self data
  = print (nl ++ colorize self "Additional Info:" "bold") >>
    formatter_line data "marketCap" "Market Cap" >>
    formatter_line data "trailingPE" "P/E Ratio" >>
    formatter_line data "dividendYield" "Dividend Yield".
Proof.
  intros H. unfold _display_detailed_info, formatter_line.
  f_equal. f_equal; [|f_equal].
  - destruct (data !! "marketCap") as [v|] eqn:E; [|done].
    rewrite format_field_value_marketCap; [done|].
    apply (H "marketCap"); [|done]. apply list_elem_of_In. simpl. tauto.
  - destruct (data !! "trailingPE") as [v|] eqn:E; [|done].
    rewrite format_field_value_trailingPE; [done|].
    apply (H "trailingPE"); [|done]. apply list_elem_of_In. simpl. tauto.
  - destruct (data !! "dividendYield") as [v|] eqn:E; [|done].
    rewrite format_field_value_dividendYield.
    2:{ apply (H "dividendYield"); [|done]. apply list_elem_of_In. simpl. tauto. }
    destruct (mul100 v) as [x|]; [|done]. cbn [mbind result_bind].
    by destruct (format_2f false false x).
Qed.

Lemma display_detailed_info_formatter_witness :
  _display_detailed_info Sample.plain Sample.ratios
  = ([nl ++ "Additional Info:"; "  P/E Ratio: 12.50"; "  Dividend Yield: 12.34%"], None).
Proof.
  rewrite (display_detailed_info_formatter Sample.plain Sample.ratios).
  - vm_compute. reflexivity.
  - intros k v Hk.
    repeat (apply elem_of_cons in Hk as [->|Hk];
            [vm_compute; intros [= <-] || intros [=]; reflexivity|]).
    by apply elem_of_nil in Hk.
Defined.

(** X17. [display_stock_info] reads the record's keys without a guard:
    for a dictionary without the key [name] it prints the message for no
    data when the dictionary is empty, and otherwise prints the opening
    rule and then raises the KeyError of [name], whatever the flags. *)
Theorem display_stock_info_without_name self data detailed specific_fields show_all :
  data !! "name" = None ->
  display_stock_info self data detailed specific_fields show_all
  = if (size data =? 0)%nat then (["No data available for this symbol."], None)
    else ([nl ++ rule self], Some (key_error "name")).
Proof.
  intros H. unfold display_stock_info. destruct (size data =? 0)%nat; [done|].
  unfold header, getitem. rewrite H. done.
Qed.

Lemma display_stock_info_without_name_witness :
  display_stock_info Sample.plain (∅ : gmap string value) true None true
  = (["No data available for this symbol."], None) /\
  display_stock_info Sample.plain {[ "symbol" := VStr "AAPL" ]} false None false
  = ([nl ++ repeat_str 60 "="], Some (key_error "name")).
Proof.
  assert (H0 : (∅ : gmap string value) !! "name" = None) by (vm_compute; reflexivity).
  assert (H1 : ({[ "symbol" := VStr "AAPL" ]} : gmap string value) !! "name" = None)
    by (vm_compute; reflexivity).
  split.
  - rewrite (display_stock_info_without_name Sample.plain _ true None true H0).
    reflexivity.
  - rewrite (display_stock_info_without_name Sample.plain _ false None false H1).
    vm_compute. reflexivity.
Defined.

(** *** The trading block on a fetched record *)

Lemma last_or_default_cell h name c :
  exists c', last_or_default h name (value_of_cell c) = value_of_cell c'.
Proof.
  unfold last_or_default. destruct (columns h !! name) as [col|]; [|by eexists].
  destruct (last_row col); by eexists.
Qed.

Lemma format_comma_window_volume h :
  exists s, format_comma (last_or_default h "Volume" (VInt 0)) = Ok s.
Proof.
  unfold last_or_default. destruct (columns h !! "Volume") as [col|]; [|by eexists].
  destruct (last_row col) as [[]|]; by eexists.
Qed.

(** X18. On a fetched record the trading block of [-d] prints its
    heading, the high, the low and the volume, four texts, and raises
    nothing, when the metadata holds no [volume], a null one or a number.
    A [volume] of the metadata that is a text, a list or a dict has
    replaced the computed volume: its grouped formatting raises
    (ValueError for a text, TypeError for a list or a dict), and the block
    stops after the low, three texts. *)
Theorem trading_info_fetched self yf now symbol data err i :
  get_stock_data yf now symbol = (Some data, err) ->
  info (yf (strip (upper symbol))) = Ok i ->
  exists lines,
    trading_info self data
    = (lines, match override i "volume" with
              | Some (VStr _) => Some (Exn ValueError "Cannot specify ',' with 's'.")
              | Some (VList _) => Some (no_format "list")
              | Some (VDict _) => Some (no_format "dict")
              | _ => None
              end) /\
    length lines = match override i "volume" with
                   | Some (VStr _) | Some (VList _) | Some (VDict _) => 3%nat
                   | _ => 4%nat
                   end.
Proof.
  intros Hg Hi.
  destruct (fetched_record _ _ _ _ _ _ Hg Hi) as (h & cur & prev & Hn & ->).
  unfold trading_info, getitem.
  do 3 fetched_key. cbn [mbind result_bind].
  destruct (last_or_default_cell h "High" cur) as [hi ->].
  destruct (last_or_default_cell h "Low" cur) as [lo ->].
  destruct (format_currency_cell self hi) as [shi ->].
  destruct (format_currency_cell self lo) as [slo ->].
  cbn [with_result]. unfold print. rewrite !seq_lines. cbn [fst snd app].
  destruct (override i "volume") as [v|] eqn:Eo; cbn [from_option].
  - pose proof (override_not_none _ _ _ Eo) as Hv.
    destruct v as [|b|z|z|f|s|l|d]; try done; cbn [format_comma with_result];
      eexists; (split; [reflexivity|reflexivity]).
  - cbv beta iota delta [mbind result_bind].
    destruct (format_comma_window_volume h) as [s ->]. cbn [with_result].
    eexists. split; reflexivity.
Qed.

Lemma trading_info_fetched_witness :
  (exists lines,
     trading_info Sample.plain Sample.fetched_apple = (lines, None) /\
     length lines = 4%nat) /\
  (exists lines,
     trading_info Sample.plain Sample.fetched_listed
     = (lines, Some (no_format "list")) /\
     length lines = 3%nat).
Proof.
  split.
  - apply (trading_info_fetched Sample.plain (Sample.serve Sample.apple Sample.two_rows)
             Sample.clock "aapl" Sample.fetched_apple [] Sample.apple);
      [apply get_stock_data_fetched; vm_compute; reflexivity | reflexivity].
  - apply (trading_info_fetched Sample.plain (Sample.serve Sample.listed Sample.two_rows)
             Sample.clock "aapl" Sample.fetched_listed [] Sample.listed);
      [apply get_stock_data_fetched; vm_compute; reflexivity | reflexivity].
Defined.

(** ** Colours and the listing of the catalog *)

Lemma append_empty_r s : s ++ "" = s.
Proof. induction s as [|c s IH]; [done|]. exact (f_equal (String c) IH). Qed.

(** X19. With the colour table that [--no-colors] installs, [colorize]
    returns its text unchanged, for every text and every colour name,
    known or not: no escape sequence is added to the output. *)
Theorem colorize_no_colors lc text color :
  colorize (Cli blank_colors lc) text color = text.
Proof.
  unfold colorize, color_code. cbn [colors blank_colors green red yellow blue bold reset].
  repeat destruct (String.eqb color _); cbn [String.append]; try done;
    by rewrite append_empty_r.
Qed.

Lemma listing_line self k label :
  (k, label) ∈ flat_map snd field_categories ->
  ("  " ++ ljust 25 k ++ " - " ++ label) ∈ _list_available_fields self.
Proof.
  intros H. unfold _list_available_fields.
  apply elem_of_app. right. apply elem_of_app. left.
  apply list_elem_of_In. apply list_elem_of_In, in_flat_map in H as (cat & Hc & Hk).
  apply in_flat_map. exists cat. split; [done|].
  right. right. apply in_map_iff. by exists (k, label).
Qed.

(** X20. [--list-fields] prints two heading lines, for each category of
    the catalog its name, a rule and one line per field, and five lines
    of usage examples; every key that [--fields] accepts, that is every
    key of [all_fields], has its line there, with the key padded to 25
    columns and the label that [--fields] prints for it. *)
Theorem list_available_fields_lines self :
  length (_list_available_fields self)
  = (7 + 2 * length field_categories + length all_field_keys)%nat /\
  forall k label,
    all_fields !! k = Some label ->
    ("  " ++ ljust 25 k ++ " - " ++ label) ∈ _list_available_fields self.
Proof.
  split; [vm_compute; reflexivity|].
  intros k label H. apply listing_line. by apply all_fields_lookup.
Qed.

(** ** CLI driver *)

(** X21. [--list-fields] is handled before [--no-colors] is applied
    and before a symbol is asked for: whatever the other arguments and
    whatever the provider, [main] prints the listing with the colour
    codes of [__init__] and returns; the first line carries the escape
    sequences for bold and reset also when [--no-colors] is given. *)
Theorem main_list_fields lc w a :
  arg_list_fields a = true ->
  main lc w a
  = RunResult ∅ (map Stdout (_list_available_fields (__init__ lc))) Returned /\
  head (events (main lc w a))
  = Some (Stdout (esc "[1m" ++ "Available Fields:" ++ esc "[0m")).
Proof.
  intros H. unfold main, run. rewrite H. done.
Qed.

Lemma main_list_fields_witness :
  head (events (main (fun _ => None) (Sample.world ∅ Sample.no_rows)
                  (Args None false false true false "1mo" "line" false None true)))
  = Some (Stdout (esc "[1m" ++ "Available Fields:" ++ esc "[0m")).
Proof.
  apply (main_list_fields (fun _ => None) (Sample.world ∅ Sample.no_rows)
           (Args None false false true false "1mo" "line" false None true) eq_refl).
Defined.



Lemma fetched_not_empty yf now symbol data err :
  get_stock_data yf now symbol = (Some data, err) -> (size data =? 0)%nat = false.
Proof.
  intros H. apply fetched_has_timestamp in H. by apply lookup_size_pos in H.
Qed.



(** X23. JSON output does not depend on the presentation: with
    [--json] (and neither [--list-fields] nor [--chart]) [run] gives the
    same result whatever the colour table, the locale, [--no-colors],
    [-d], [--all], [--fields], and the chart options. *)
Theorem run_json_presentation self self' w symbol d d' nc nc' p p' t t' al al' fs fs' :
  run self w (Args symbol d true nc false p t al fs false)
  = run self' w (Args symbol d' true nc' false p' t' al' fs' false).
Proof.
  unfold run.
  cbn [arg_symbol arg_detailed arg_json arg_no_colors arg_chart arg_period
       arg_type arg_all arg_fields arg_list_fields].
  by destruct symbol as [[|c s]|].
Qed.

(** ** The two closes of the snapshot *)

(** X24. The prices of a fetched record are the last two samples of
    the [Close] column: [current_price] is its last row, and
    [previous_close] the row before the last when the window has two rows
    or more, the last row itself otherwise. *)
Theorem get_stock_data_last_two_samples yf now symbol data err h :
  get_stock_data yf now symbol = (Some data, err) ->
  history (yf (strip (upper symbol))) "2d" = Ok h ->
  exists close,
    columns h !! "Close" = Some close /\
    data !! "current_price" = value_of_cell <$> last_row close /\
    data !! "previous_close"
    = value_of_cell <$> (if (1 <? nrows h)%nat then row_before_last close
                         else last_row close).
Proof.
  intros Hg Hh. apply get_stock_data_Some in Hg as [_ Hb].
  apply stock_data_body_Some in Hb
    as (i & h' & close & cur & prev & _ & Hh' & _ & Hc & Hcur & Hprev & ->).
  rewrite Hh in Hh'. injection Hh' as <-. exists close. split; [done|].
  split; [fetched_key; by rewrite Hcur|].
  fetched_key. destruct (1 <? nrows h)%nat; [by rewrite Hprev|].
  by rewrite Hcur, Hprev.
Qed.

Lemma get_stock_data_last_two_samples_witness :
  exists close,
    columns Sample.two_rows !! "Close" = Some close /\
    Sample.fetched_apple !! "current_price" = value_of_cell <$> last_row close /\
    Sample.fetched_apple !! "previous_close"
    = value_of_cell <$> (if (1 <? nrows Sample.two_rows)%nat then row_before_last close
                         else last_row close).
Proof.
  apply (get_stock_data_last_two_samples (Sample.serve Sample.apple Sample.two_rows)
           Sample.clock "aapl" Sample.fetched_apple [] Sample.two_rows);
    [apply get_stock_data_fetched; vm_compute; reflexivity | reflexivity].
Defined.

(** ** [--all] and [--fields] *)




(** ** What a run does to the outside, by mode *)








(** ** The clock *)

Lemma merge_info_timestamp i sy na cp pc ch chp vo hi lo now now' :
  <["timestamp" := VStr now']>
    (merge_info i (base_record sy na cp pc ch chp vo hi lo (VStr now)))
  = merge_info i (base_record sy na cp pc ch chp vo hi lo (VStr now')).
Proof.
  apply map_eq. intros k. destruct (decide (k = "timestamp")) as [->|Hk].
  - rewrite lookup_insert_eq. by fetched_key.
  - rewrite lookup_insert_ne by done. rewrite !merge_info_lookup, !base_record_lookup.
    destruct (String.eqb_spec k "timestamp"); done.
Qed.

(** X27. The clock reading is used for the [timestamp] of the record
    and for nothing else: with another reading [get_stock_data] prints
    the same diagnostics and returns no data in the same cases, and a
    record that differs in its [timestamp] only. *)
Theorem get_stock_data_clock yf now now' symbol :
  (get_stock_data yf now' symbol).2 = (get_stock_data yf now symbol).2 /\
  (get_stock_data yf now' symbol).1
  = (fun data => <["timestamp" := VStr now']> data) <$> (get_stock_data yf now symbol).1.
Proof.
  unfold get_stock_data, stock_data_body.
  destruct (info (yf (strip (upper symbol)))) as [i|e];
    [|cbv beta iota delta [mbind result_bind]; split; reflexivity].
  destruct (history (yf (strip (upper symbol))) "2d") as [h|e];
    [|cbv beta iota delta [mbind result_bind]; split; reflexivity].
  cbv beta iota delta [mbind result_bind].
  destruct (frame_empty h); [done|].
  destruct (column h "Close") as [close|e]; [|done].
  destruct (iloc close (-1)) as [cur|e]; [|done].
  destruct (if (1 <? nrows h)%nat then iloc close (-2) else Ok cur) as [prev|e]; [|done].
  destruct (last_or h "Volume" (VInt 0)) as [vo|e]; [|done].
  destruct (last_or h "High" (value_of_cell cur)) as [hi|e]; [|done].
  destruct (last_or h "Low" (value_of_cell cur)) as [lo|e]; [|done].
  cbn [fst snd fmap option_fmap option_map]. split; [done|].
  by rewrite merge_info_timestamp.
Qed.

(** ** Plain mode *)

Lemma display_stock_info_plain self yf now symbol data err specific_fields :
  get_stock_data yf now symbol = (Some data, err) ->
  truthy specific_fields = false ->
  exists lines,
    length lines = 8%nat /\
    display_stock_info self data false specific_fields false = (lines, None).
Proof.
  intros Hg Ht.
  destruct (fetched_headline_fields _ _ _ _ _ Hg)
    as (name & sym & cur & prev & Hna & Hsy & Hch & Hcp & Hpc & Hpr & Hts).
  destruct (ge_zero_cell (cell_sub cur prev)) as [up Hup].
  destruct (format_currency_cell self cur) as [price Hprice].
  destruct (format_currency_cell self (cell_sub cur prev)) as [chg Hchg].
  destruct (format_currency_cell self prev) as [prv Hprv].
  destruct (format_percentage_change (cell_sub cur prev) prev) as [pct Hpct].
  unfold display_stock_info. rewrite (lookup_size_pos _ _ _ Hts).
  unfold additional_info. rewrite Ht. cbn [orb].
  unfold header, price_and_change, footer, getitem.
  rewrite Hna, Hsy, Hch, Hcp, Hpc, Hpr, Hts.
  cbv beta iota delta [mbind result_bind with_result].
  rewrite Hup, Hprice, Hchg, Hpct, Hprv.
  cbv beta iota delta [with_result print seq skip fst snd app].
  eexists. split; [|reflexivity]. reflexivity.
Qed.

(** X28. Plain mode does not fail on a fetched record: without [-d],
    [--all], [--fields], [--json] and [--chart], whenever the snapshot
    fetch delivers a record, whatever the metadata and the prices in it,
    [run] prints eight texts to standard output (header, price section
    and footer), raises nothing and returns normally. *)
Theorem run_plain_mode self w a symbol :
  arg_list_fields a = false -> arg_symbol a = Some symbol -> symbol <> "" ->
  arg_chart a = false -> arg_json a = false -> arg_detailed a = false ->
  arg_all a = false -> truthy (arg_fields a) = false ->
  delivered (get_stock_data (yf w) (now w) symbol) = true ->
  final_status (run self w a) = Returned /\
  exists lines, length lines = 8%nat /\ events (run self w a) = map Stdout lines.
Proof.
  intros Hl Hs Hne Hc Hj Hd Ha Hf Hg.
  destruct (get_stock_data (yf w) (now w) symbol) as [[record|] err] eqn:E; [|done].
  destruct (display_stock_info_plain
              (if arg_no_colors a then Cli blank_colors (locale_currency self) else self)
              _ _ _ _ _ (arg_fields a) E Hf) as (lines & Hlen & Hlines).
  unfold run. rewrite Hl, Hs, Hc, Hj, Hd, Ha.
  destruct symbol as [|c s]; [done|]. rewrite E.
  rewrite (fetched_not_empty _ _ _ _ _ E). unfold alloc, before. cbv zeta.
  rewrite lookup_insert_eq. cbn [default from_option]. cbv beta delta [id].
  rewrite Hlines.
  cbn [final_status events fst snd map app status_of]. split; [done|].
  exists lines. split; [done|].
  apply get_stock_data_Some in E as [-> _]. done.
Qed.

Lemma run_plain_mode_witness :
  final_status (run Sample.plain (Sample.world Sample.odd Sample.two_rows)
                  (Args (Some "aapl") false false false false "1mo" "line" false None false))
  = Returned /\
  exists lines,
    length lines = 8%nat /\
    events (run Sample.plain (Sample.world Sample.odd Sample.two_rows)
              (Args (Some "aapl") false false false false "1mo" "line" false None false))
    = map Stdout lines.
Proof.
  apply (run_plain_mode Sample.plain (Sample.world Sample.odd Sample.two_rows)
           (Args (Some "aapl") false false false false "1mo" "line" false None false)
           "aapl" eq_refl eq_refl ltac:(discriminate) eq_refl eq_refl eq_refl eq_refl
           eq_refl ltac:(vm_compute; reflexivity)).
Defined.
